(** * Hysteria2 bootstrap scripts: [app.py] and its obfuscating variant

    A shallow embedding of the two start-up scripts of the repository and
    the properties of their specification.  Both scripts are one linear
    sequence of steps over the process environment, the working directory
    and a few external services; the embedding threads an explicit state
    through those steps and takes every answer of the outside world from a
    [host] record. *)

From Stdlib Require Import ZArith NArith List String Ascii Lia Bool DecimalString.
From stdpp Require Import base option list gmap.

Import ListNotations.
Local Open Scope N_scope.

(** ** Python [str] values

    A [str] is a sequence of Unicode code points.  Literals are written as
    UTF-8 text and decoded by [py]. *)

Abbreviation str := (list N) (only parsing).

Definition bytes_of (s : string) : list N :=
  map (fun a => N_of_ascii a) (list_ascii_of_string s).

Fixpoint utf8_decode (bs : list N) : str :=
  match bs with
  | [] => []
  | b0 :: r0 =>
    if b0 <? 128 then b0 :: utf8_decode r0 else
    match r0 with
    | [] => [b0]
    | b1 :: r1 =>
      if b0 <? 224 then
        N.lor (N.shiftl (N.land b0 31) 6) (N.land b1 63) :: utf8_decode r1
      else
      match r1 with
      | [] => [b0; b1]
      | b2 :: r2 =>
        if b0 <? 240 then
          N.lor (N.shiftl (N.land b0 15) 12)
            (N.lor (N.shiftl (N.land b1 63) 6) (N.land b2 63))
          :: utf8_decode r2
        else
        match r2 with
        | [] => [b0; b1; b2]
        | b3 :: r3 =>
          N.lor (N.shiftl (N.land b0 7) 18)
            (N.lor (N.shiftl (N.land b1 63) 12)
               (N.lor (N.shiftl (N.land b2 63) 6) (N.land b3 63)))
          :: utf8_decode r3
        end
      end
    end
  end.

Definition py (s : string) : str := utf8_decode (bytes_of s).

(** The escape character of the colour sequences ("\033"). *)
Definition ESC : str := [27].
(** "\n" *)
Definition NL : str := [10].

(** [str.isspace] on one code point (CPython's [_PyUnicode_IsWhitespace]). *)
Definition isspace (c : N) : bool :=
  ((9 <=? c) && (c <=? 13)) || ((28 <=? c) && (c <=? 32))
  || (c =? 133) || (c =? 160) || (c =? 5760)
  || ((8192 <=? c) && (c <=? 8202))
  || (c =? 8232) || (c =? 8233) || (c =? 8239) || (c =? 8287)
  || (c =? 12288).

Fixpoint lstrip (s : str) : str :=
  match s with
  | c :: r => if isspace c then lstrip r else s
  | [] => []
  end.

Definition rstrip (s : str) : str := rev (lstrip (rev s)).

(** [s.strip()] *)
Definition strip (s : str) : str := rstrip (lstrip s).

(** Line boundaries of [str.splitlines], "\r\n" apart. *)
Definition is_linebreak (c : N) : bool :=
  ((10 <=? c) && (c <=? 13)) || ((28 <=? c) && (c <=? 30))
  || (c =? 133) || (c =? 8232) || (c =? 8233).

(** [splitlines_from cur s]: the lines of [rev cur ++ s], where [cur] holds
    the characters of the line being read, last one first. *)
Fixpoint splitlines_from (cur : str) (s : str) : list str :=
  match s with
  | [] => match cur with [] => [] | _ => [rev cur] end
  | c :: r =>
    if c =? 13 then
      match r with
      | 10 :: r' => rev cur :: splitlines_from [] r'
      | _ => rev cur :: splitlines_from [] r
      end
    else if is_linebreak c then rev cur :: splitlines_from [] r
    else splitlines_from (c :: cur) r
  end.

(** [s.splitlines()] *)
Definition splitlines (s : str) : list str := splitlines_from [] s.

(** [s.split(sep, 1)] for a one-character separator: [None] when [sep] does
    not occur (the result has one element), else the text before and the
    text after its first occurrence. *)
Fixpoint split1 (sep : N) (s : str) : option (str * str) :=
  match s with
  | [] => None
  | c :: r =>
    if c =? sep then Some ([], r)
    else match split1 sep r with
         | Some (a, b) => Some (c :: a, b)
         | None => None
         end
  end.

(** [s.startswith(c)] for a one-character prefix. *)
Definition startswith (c : N) (s : str) : bool :=
  match s with
  | c' :: _ => c' =? c
  | [] => false
  end.

(** [s.lower()] on the ASCII letters. *)
Definition lower (s : str) : str :=
  map (fun c => if (65 <=? c) && (c <=? 90) then c + 32 else c) s.

(** Truthiness of a [str]: the empty string is false. *)
Definition nonempty (s : str) : bool :=
  match s with [] => false | _ => true end.

(** [str(n)] for an [int]: its decimal digits, with "-" below zero. *)
Definition str_of_int (n : Z) : str :=
  bytes_of (NilZero.string_of_int (Z.to_int n)).

(** [sep.join(l)] *)
Fixpoint join (sep : str) (l : list str) : str :=
  match l with
  | [] => []
  | [x] => x
  | x :: r => x ++ sep ++ join sep r
  end.

(** [s.split(sep)] for a one-character separator; [cur] holds the field
    being read, last character first. *)
Fixpoint split_from (sep : N) (cur : str) (s : str) : list str :=
  match s with
  | [] => [rev cur]
  | c :: r =>
    if c =? sep then rev cur :: split_from sep [] r
    else split_from sep (c :: cur) r
  end.

Definition split (sep : N) (s : str) : list str := split_from sep [] s.

(** ** Paths ([pathlib.PurePosixPath])

    A path is its anchor ("", "/" or "//") and its components. *)

Record Path := { anchor : str; parts : list str }.

Definition SLASH : N := 47.

(** The anchor of a path string: two leading slashes are kept, one or
    three and more are a single root. *)
Definition anchor_of (s : str) : str :=
  match s with
  | 47 :: 47 :: 47 :: _ => [SLASH]
  | 47 :: 47 :: _ => [SLASH; SLASH]
  | 47 :: _ => [SLASH]
  | _ => []
  end.

Definition is_component (c : str) : bool :=
  match c with
  | [] => false
  | [46] => false
  | _ => true
  end.

(** [Path(s)] *)
Definition path_of (s : str) : Path :=
  {| anchor := anchor_of s; parts := filter (fun c => is_component c = true) (split SLASH s) |}.

(** [p / s] *)
Definition truediv (p : Path) (s : str) : Path :=
  let q := path_of s in
  match anchor q with
  | [] => {| anchor := anchor p; parts := parts p ++ parts q |}
  | _ => q
  end.

(** [str(p)] *)
Definition path_str (p : Path) : str :=
  match anchor p, parts p with
  | [], [] => [46]
  | a, l => a ++ join [SLASH] l
  end.

(** [p.name] *)
Definition path_name (p : Path) : str := List.last (parts p) [].

(** ** The process state and the outside world *)

(** A file of the working directory: what it holds (the decoded text of a
    text file, the bytes of a binary one) and its permission bits. *)
Record file := { content : list N; mode : N }.

(** [os.access(p, os.X_OK)] for a file the process owns. *)
Definition executable (f : file) : bool := N.testbit (mode f) 6.

(** Python exceptions: the class that [except] clauses look at and the
    text that [str(e)] gives. *)
Inductive exn_class := ValueError | OSError | OtherError.

Record exn := { exn_cls : exn_class; exn_msg : str }.

(** What the script does to the outside world, in the order it does it. *)
Inductive event :=
| EPrint (text : str)                       (* print(text) *)
| EUrlopen (url : str) (timeout : Z)        (* urllib.request.urlopen *)
| EUrlretrieve (url : str) (dest : str)     (* urllib.request.urlretrieve *)
| ERun (argv : list str) (check : bool)     (* subprocess.run *)
| ESleep (secs : Z).                        (* time.sleep *)

(** The outcome of [urllib.request.urlretrieve]: the whole body, or an
    exception that may leave part of the body in the destination. *)
Inductive retrieved :=
| Retrieved (body : list N)
| RetrieveFailed (msg : str) (partial : option (list N)).

(** The outcome of [subprocess.run]: the process ran, wrote files and
    returned a code, or it could not be started. *)
Inductive completed :=
| Completed (writes : list (str * list N)) (returncode : Z)
| NotStarted (msg : str).

(** Everything the source leaves to its surroundings. *)
Record host := {
  cwd : str;                                  (* os.getcwd() *)
  py_int : str -> option Z;                   (* int(s); None: ValueError *)
  urlopen_body : str -> str + str;            (* response.read().decode('utf-8'),
                                                 or the text of the exception *)
  urlretrieve_outcome : str -> retrieved;
  subprocess_outcome : list str -> completed;
  called_process_error : list str -> Z -> str;  (* str(CalledProcessError) *)
  random_choices : str -> nat -> list N       (* random.choices(population, k=k) *)
}.

Record state := {
  environ : gmap str str;        (* os.environ *)
  fs : gmap str file;            (* files, by path *)
  trace : list event;
  HY2_BINARY : option Path       (* the global of the obfuscating variant *)
}.

Definition set_environ (e : gmap str str) (st : state) : state :=
  {| environ := e; fs := fs st; trace := trace st; HY2_BINARY := HY2_BINARY st |}.
Definition set_fs (f : gmap str file) (st : state) : state :=
  {| environ := environ st; fs := f; trace := trace st; HY2_BINARY := HY2_BINARY st |}.
Definition emit (e : event) (st : state) : state :=
  {| environ := environ st; fs := fs st; trace := trace st ++ [e];
     HY2_BINARY := HY2_BINARY st |}.
Definition set_binary (p : option Path) (st : state) : state :=
  {| environ := environ st; fs := fs st; trace := trace st; HY2_BINARY := p |}.

(** ** Programs

    A statement either completes with a value, raises an exception, or
    ends the process through [sys.exit] ([SystemExit] is not an
    [Exception], so no handler of the scripts catches it). *)

Inductive result (A : Type) :=
| Return (a : A)
| Raise (e : exn)
| Exit (code : Z).
Arguments Return {A} a.
Arguments Raise {A} e.
Arguments Exit {A} code.

Definition prog (A : Type) : Type := state -> result A * state.

#[global] Instance prog_ret : MRet prog := fun A a st => (Return a, st).

#[global] Instance prog_bind : MBind prog := fun A B f m st =>
  match m st with
  | (Return a, st') => f a st'
  | (Raise e, st') => (Raise e, st')
  | (Exit c, st') => (Exit c, st')
  end.

#[global] Instance prog_fmap : FMap prog := fun A B f m =>
  m ≫= fun a => mret (f a).

Definition raise {A} (e : exn) : prog A := fun st => (Raise e, st).

(** [sys.exit(code)] *)
Definition sys_exit {A} (code : Z) : prog A := fun st => (Exit code, st).

(** [try: body  except Exception as e: handler(e)] *)
Definition try_except {A} (body : prog A) (handler : exn -> prog A) : prog A :=
  fun st =>
    match body st with
    | (Raise e, st') => handler e st'
    | r => r
    end.

(** [try: body  except cls: handler] *)
Definition try_except_only {A} (cls : exn_class) (body : prog A)
    (handler : prog A) : prog A :=
  fun st =>
    match body st with
    | (Raise e, st') =>
      match exn_cls e, cls with
      | ValueError, ValueError | OSError, OSError | OtherError, OtherError =>
        handler st'
      | _, _ => (Raise e, st')
      end
    | r => r
    end.

(** [for x in l: body(x)] *)
Fixpoint for_ {A} (l : list A) (body : A -> prog unit) : prog unit :=
  match l with
  | [] => mret ()
  | x :: r => body x;; for_ r body
  end.

(** [for x in l: body(x)] where the body may [return v] ([Some v]) or go
    on with the next element ([None]). *)
Fixpoint for_return {A B} (l : list A) (body : A -> prog (option B))
    : prog (option B) :=
  match l with
  | [] => mret None
  | x :: r =>
    v ← body x;
    match v with
    | Some b => mret (Some b)
    | None => for_return r body
    end
  end.

(** [if c: body] *)
Definition when_ (c : bool) (body : prog unit) : prog unit :=
  if c then body else mret ().

(** *** Primitive statements *)

Definition print (text : str) : prog unit :=
  fun st => (Return (), emit (EPrint text) st).

(** [os.getenv(key)] *)
Definition getenv (key : str) : prog (option str) :=
  fun st => (Return (environ st !! key), st).

(** [os.getenv(key, default)] *)
Definition getenv_default (key dflt : str) : prog str :=
  fun st => (Return (default dflt (environ st !! key)), st).

(** [os.environ[key] = value]: the name of a variable is not empty and has
    no "=", and neither the name nor the value holds a NUL. *)
Definition has_char (c : N) (s : str) : bool := existsb (N.eqb c) s.

Definition environ_setitem (key value : str) : prog unit :=
  fun st =>
    if has_char 0 key || has_char 0 value then
      (Raise {| exn_cls := ValueError; exn_msg := py "embedded null byte" |}, st)
    else if has_char 61 key then
      (Raise {| exn_cls := ValueError;
                exn_msg := py "illegal environment variable name" |}, st)
    else if nonempty key then
      (Return (), set_environ (<[key := value]> (environ st)) st)
    else
      (Raise {| exn_cls := OSError;
                exn_msg := py "[Errno 22] Invalid argument" |}, st).

(** [key, value = parts] for the result of [split(sep, 1)] *)
Definition unpack2 (parts : option (str * str)) : prog (str * str) :=
  match parts with
  | Some kv => mret kv
  | None =>
    raise {| exn_cls := ValueError;
             exn_msg := py "not enough values to unpack (expected 2, got 1)" |}
  end.

Definition no_such_file (p : Path) : exn :=
  {| exn_cls := OSError;
     exn_msg := py "[Errno 2] No such file or directory: '" ++ path_str p ++ py "'" |}.

(** [p.exists()] *)
Definition exists_ (p : Path) : prog bool :=
  fun st => (Return (bool_decide (is_Some (fs st !! path_str p))), st).

(** [os.access(p, os.X_OK)] *)
Definition access_x (p : Path) : prog bool :=
  fun st => (Return (match fs st !! path_str p with
                     | Some f => executable f
                     | None => false
                     end), st).

(** [p.read_text()] *)
Definition read_text (p : Path) : prog str :=
  fun st =>
    match fs st !! path_str p with
    | Some f => (Return (content f), st)
    | None => (Raise (no_such_file p), st)
    end.

(** Writing a file keeps the permissions of an existing file and creates
    a new one with rw-r--r--. *)
Definition store (path : str) (data : list N) (m : gmap str file) : gmap str file :=
  <[path := {| content := data;
               mode := match m !! path with Some f => mode f | None => 420 end |}]> m.

(** [p.write_text(text)] *)
Definition write_text (p : Path) (text : str) : prog unit :=
  fun st => (Return (), set_fs (store (path_str p) text (fs st)) st).

(** [p.chmod(m)] *)
Definition chmod (p : Path) (m : N) : prog unit :=
  fun st =>
    match fs st !! path_str p with
    | Some f =>
      (Return (),
       set_fs (<[path_str p := {| content := content f; mode := m |}]> (fs st)) st)
    | None => (Raise (no_such_file p), st)
    end.

(** [p.unlink()] *)
Definition unlink (p : Path) : prog unit :=
  fun st =>
    match fs st !! path_str p with
    | Some _ => (Return (), set_fs (delete (path_str p) (fs st)) st)
    | None => (Raise (no_such_file p), st)
    end.

(** [p.rename(q)] *)
Definition rename (p q : Path) : prog unit :=
  fun st =>
    match fs st !! path_str p with
    | Some f =>
      (Return (), set_fs (<[path_str q := f]> (delete (path_str p) (fs st))) st)
    | None => (Raise (no_such_file p), st)
    end.

(** [time.sleep(secs)] *)
Definition sleep (secs : Z) : prog unit :=
  fun st => (Return (), emit (ESleep secs) st).

Section Host.

Variable h : host.

(** [int(s)] *)
Definition int_ (s : str) : prog Z :=
  match py_int h s with
  | Some n => mret n
  | None => raise {| exn_cls := ValueError; exn_msg := [] |}
  end.

(** [with urllib.request.urlopen(url, timeout=t) as response:
       response.read().decode('utf-8')] *)
Definition urlopen_read (url : str) (timeout : Z) : prog str :=
  fun st =>
    match urlopen_body h url with
    | inl body => (Return body, emit (EUrlopen url timeout) st)
    | inr msg =>
      (Raise {| exn_cls := OtherError; exn_msg := msg |},
       emit (EUrlopen url timeout) st)
    end.

(** [urllib.request.urlretrieve(url, dest)] *)
Definition urlretrieve (url : str) (dest : Path) : prog unit :=
  fun st =>
    let st := emit (EUrlretrieve url (path_str dest)) st in
    match urlretrieve_outcome h url with
    | Retrieved body =>
      (Return (), set_fs (store (path_str dest) body (fs st)) st)
    | RetrieveFailed msg partial =>
      (Raise {| exn_cls := OtherError; exn_msg := msg |},
       match partial with
       | Some part => set_fs (store (path_str dest) part (fs st)) st
       | None => st
       end)
    end.

(** [subprocess.run(argv, check=check)] *)
Definition subprocess_run (argv : list str) (check : bool) : prog unit :=
  fun st =>
    let st := emit (ERun argv check) st in
    match subprocess_outcome h argv with
    | Completed writes returncode =>
      let st := set_fs (foldl (fun m w => store w.1 w.2 m) (fs st) writes) st in
      if check && negb (returncode =? 0)%Z then
        (Raise {| exn_cls := OtherError;
                  exn_msg := called_process_error h argv returncode |}, st)
      else (Return (), st)
    | NotStarted msg => (Raise {| exn_cls := OSError; exn_msg := msg |}, st)
    end.

End Host.

(** ** What the two scripts share

    [load_dotenv], [get_public_ip] and [generate_self_signed_cert] are the
    same text in [app.py] and in the obfuscating variant. *)

Section Common.

Variable h : host.

Definition WORK_DIR : Path := path_of (cwd h).
Definition CONFIG_FILE : Path := truediv WORK_DIR (py "config.yaml").
Definition CERT_FILE : Path := truediv WORK_DIR (py "cert.crt").
Definition KEY_FILE : Path := truediv WORK_DIR (py "cert.key").
Definition ENV_FILE : Path := truediv WORK_DIR (py ".env").

Definition load_dotenv : prog unit :=
  found ← exists_ ENV_FILE;
  when_ found (
    print (py ".env 文件已检测到，正在加载...");;
    try_except
      (text ← read_text ENV_FILE;
       for_ (splitlines text) (fun line =>
         let line := strip line in
         when_ (nonempty line && negb (startswith 35 line)) (
           kv ← unpack2 (split1 61 line);
           environ_setitem (strip kv.1) (strip kv.2)));;
       print (py ".env 加载完成"))
      (fun e => print (py ".env 加载失败: " ++ exn_msg e))).

Definition ip_sources : list str :=
  [ py "https://api.ipify.org";
    py "https://ifconfig.me";
    py "https://icanhazip.com";
    py "https://ipinfo.io/ip";
    py "http://checkip.amazonaws.com" ].

Definition get_public_ip : prog str :=
  got ← for_return ip_sources (fun source =>
    try_except
      (body ← urlopen_read h source 5;
       let ip := strip body in
       if nonempty ip then
         print (py "自动获取公网 IP 成功（来源: " ++ source ++ py "）：" ++ ip);;
         mret (Some ip)
       else mret None)
      (fun _ => mret None));
  match got with
  | Some ip => mret ip
  | None =>
    print (ESC ++ py "[91m自动获取公网 IP 失败（所有来源均不可达），请手动查看服务器 IP 并替换链接中的地址" ++ ESC ++ py "[m");;
    mret (py "你的服务器IP")
  end.

Definition generate_self_signed_cert : prog unit :=
  have_cert ← exists_ CERT_FILE;
  have_key ← exists_ KEY_FILE;
  if have_cert && have_key then
    print (py "自签证书已存在，跳过生成")
  else
    print (py "正在生成自签证书...");;
    try_except
      (fake_domain ← getenv_default (py "FAKE_DOMAIN") (py "bing.com");
       subprocess_run h
         [ py "openssl"; py "req"; py "-x509"; py "-nodes"; py "-days"; py "36500";
           py "-newkey"; py "rsa:2048";
           py "-keyout"; path_str KEY_FILE;
           py "-out"; path_str CERT_FILE;
           py "-subj"; py "/CN=" ++ fake_domain ] true;;
       chmod KEY_FILE 384;;
       chmod CERT_FILE 420;;
       print (py "自签证书生成完成"))
      (fun e =>
         print (py "证书生成失败（可能缺少 openssl）: " ++ exn_msg e);;
         sys_exit 1).

(** The part of [generate_config] that the two scripts share: everything
    but the layout of the rendered text. *)
Definition generate_config_with (render : Z -> str -> str -> str) : prog unit :=
  port ← getenv_default (py "HY2_PORT") (py "7102");
  password ← getenv (py "HY2_PASSWORD");
  masquerade_url ← getenv_default (py "MASQUERADE_URL") (py "https://www.bing.com");
  when_ (negb (nonempty (default [] password))) (
    print (ESC ++ py "[91m错误：HY2_PASSWORD 未设置！请在面板环境变量或 .env 文件中设置强密码" ++ ESC ++ py "[m");;
    sys_exit 1);;
  port ← try_except_only ValueError (int_ h port) (
    print (ESC ++ py "[91m错误：HY2_PORT 必须是数字" ++ ESC ++ py "[m");;
    sys_exit 1);
  let config_content := render port (default [] password) masquerade_url in
  write_text CONFIG_FILE config_content;;
  print (py "配置文件已生成").

(** The connection link of [run_hysteria2]. *)
Definition base_url (password public_ip port fake_domain : str) : str :=
  py "hysteria2://" ++ password ++ py "@" ++ public_ip ++ py ":" ++ port
  ++ py "/?sni=" ++ fake_domain ++ py "&insecure=1".

Definition client_url (base hy2_node_name : str) : str :=
  if nonempty hy2_node_name then base ++ py "#" ++ hy2_node_name else base.

End Common.

(** ** [app.py] *)

Module App.
Section App.

Variable h : host.

Definition HY2_BINARY : Path := truediv (WORK_DIR h) (py "hysteria").

Definition download_hysteria2 : prog unit :=
  arch ← lower <$> getenv_default (py "ARCH") (py "amd64");
  let binary_name := py "hysteria-linux-" ++ arch in
  present ← exists_ HY2_BINARY;
  if present : bool then
    print (py "Hysteria2 二进制已存在（" ++ binary_name ++ py "），跳过下载")
  else
    print (py "正在下载最新版 Hysteria2 (" ++ binary_name ++ py ")...");;
    let url := py "https://github.com/apernet/hysteria/releases/latest/download/"
               ++ binary_name in
    try_except
      (urlretrieve h url HY2_BINARY;;
       chmod HY2_BINARY 493;;
       print (py "下载完成"))
      (fun e =>
         print (py "下载失败（可能架构错误？当前设置: " ++ arch ++ py "）: " ++ exn_msg e);;
         sys_exit 1).

Definition config_content (port : Z) (password masquerade_url : str) : str :=
  py "listen: :" ++ str_of_int port ++ NL
  ++ NL
  ++ py "tls:" ++ NL
  ++ py "  cert: " ++ path_str (CERT_FILE h) ++ NL
  ++ py "  key: " ++ path_str (KEY_FILE h) ++ NL
  ++ NL
  ++ py "auth:" ++ NL
  ++ py "  type: password" ++ NL
  ++ py "  password: " ++ password ++ NL
  ++ NL
  ++ py "masquerade:" ++ NL
  ++ py "  type: proxy" ++ NL
  ++ py "  proxy:" ++ NL
  ++ py "    url: " ++ masquerade_url ++ NL
  ++ py "    rewriteHost: true" ++ NL.

Definition generate_config : prog unit :=
  generate_config_with h config_content.

Definition run_hysteria2 : prog unit :=
  public_ip ← get_public_ip h;
  port ← getenv_default (py "HY2_PORT") (py "7102");
  password ← getenv_default (py "HY2_PASSWORD") (py "[未设置]");
  fake_domain ← getenv_default (py "FAKE_DOMAIN") (py "bing.com");
  hy2_node_name ← strip <$> getenv_default (py "HY2_NODE_NAME") (py "Hysteria2 Node");
  let base_url := base_url password public_ip port fake_domain in
  let client_url := client_url base_url hy2_node_name in
  print (NL ++ py "=== Hysteria2 服务器启动成功 ===");;
  print (py "监听端口: " ++ port);;
  print (py "公网 IP: " ++ public_ip);;
  print (py "节点名称: " ++ hy2_node_name);;
  print (py "工作目录: " ++ path_str (WORK_DIR h) ++ NL);;
  print (py "客户端连接链接（自签证书，需要允许不安全）：");;
  print (NL ++ ESC ++ py "[92m" ++ client_url ++ ESC ++ py "[m" ++ NL);;
  print (py "提示：");;
  print (py "- 可直接复制上方链接导入 v2rayNG / NekoBox / Clash Meta 等客户端");;
  print (py "- 节点将在客户端显示为："
         ++ (if nonempty hy2_node_name then hy2_node_name else py "默认名称"));;
  print (py "- 如果 IP 获取失败，请手动替换链接中的“你的服务器IP”");;
  print (py "- 日志输出开始（面板重启会自动运行）" ++ NL);;
  subprocess_run h
    [ path_str HY2_BINARY; py "server"; py "-c"; path_str (CONFIG_FILE h) ] false.

Definition main : prog unit :=
  print (py "=== Hysteria2 容器专用启动脚本（工作目录为当前路径）===");;
  print (py "当前工作目录: " ++ path_str (WORK_DIR h));;
  load_dotenv h;;
  download_hysteria2;;
  generate_self_signed_cert h;;
  generate_config;;
  sleep 2;;
  run_hysteria2.

End App.
End App.

(** ** The obfuscating variant

    The binary is kept under a random name, recorded in [.bin_name]. *)

Module Bot.
Section Bot.

Variable h : host.

Definition BINARY_RECORD : Path := truediv (WORK_DIR h) (py ".bin_name").

(** [string.ascii_lowercase + string.digits] *)
Definition alphabet : str := py "abcdefghijklmnopqrstuvwxyz0123456789".

(** [HY2_BINARY = p] *)
Definition assign_HY2_BINARY (p : Path) : prog unit :=
  fun st => (Return (), set_binary (Some p) st).

Definition download_hysteria2 : prog unit :=
  arch ← lower <$> getenv_default (py "ARCH") (py "amd64");
  let binary_name := py "hysteria-linux-" ++ arch in
  recorded ← exists_ BINARY_RECORD;
  reuse ←
    (if recorded : bool then
       recorded_name ← strip <$> read_text BINARY_RECORD;
       let candidate := truediv (WORK_DIR h) recorded_name in
       present ← exists_ candidate;
       runnable ← access_x candidate;
       if present && runnable then
         assign_HY2_BINARY candidate;;
         print (py "检测到已有二进制文件（记录名称）：" ++ recorded_name ++ py "，跳过下载");;
         mret true
       else mret false
     else mret false);
  if reuse : bool then mret ()
  else
    let random_name := random_choices h alphabet 16 in
    let temp_binary := truediv (WORK_DIR h) (py "temp-binary") in
    print (py "正在下载最新版 Hysteria2 (" ++ binary_name ++ py ")...");;
    let url := py "https://github.com/apernet/hysteria/releases/latest/download/"
               ++ binary_name in
    try_except
      (urlretrieve h url temp_binary;;
       chmod temp_binary 493;;
       let target := truediv (WORK_DIR h) random_name in
       assign_HY2_BINARY target;;
       rename temp_binary target;;
       write_text BINARY_RECORD random_name;;
       print (py "下载完成，已使用纯随机文件名：" ++ random_name))
      (fun e =>
         print (py "下载失败（可能架构错误？当前设置: " ++ arch ++ py "）: " ++ exn_msg e);;
         left_over ← exists_ temp_binary;
         when_ left_over (unlink temp_binary);;
         sys_exit 1).

Definition config_content (port : Z) (password masquerade_url : str) : str :=
  py "listen: :" ++ str_of_int port ++ NL
  ++ py "tls:" ++ NL
  ++ py "  cert: " ++ path_str (CERT_FILE h) ++ NL
  ++ py "  key: " ++ path_str (KEY_FILE h) ++ NL
  ++ py "auth:" ++ NL
  ++ py "  type: password" ++ NL
  ++ py "  password: " ++ password ++ NL
  ++ py "masquerade:" ++ NL
  ++ py "  type: proxy" ++ NL
  ++ py "  proxy:" ++ NL
  ++ py "    url: " ++ masquerade_url ++ NL
  ++ py "    rewriteHost: true" ++ NL.

Definition generate_config : prog unit :=
  generate_config_with h config_content.

(** [HY2_BINARY] as the script reads it; [None] has no [name]. *)
Definition the_binary : prog Path :=
  fun st =>
    match HY2_BINARY st with
    | Some p => (Return p, st)
    | None =>
      (Raise {| exn_cls := OtherError;
                exn_msg := py "'NoneType' object has no attribute 'name'" |}, st)
    end.

Definition run_hysteria2 : prog unit :=
  public_ip ← get_public_ip h;
  port ← getenv_default (py "HY2_PORT") (py "7102");
  password ← getenv_default (py "HY2_PASSWORD") (py "[未设置]");
  fake_domain ← getenv_default (py "FAKE_DOMAIN") (py "bing.com");
  hy2_node_name ← strip <$> getenv_default (py "HY2_NODE_NAME") (py "Hysteria2 Node");
  let base_url := base_url password public_ip port fake_domain in
  let client_url := client_url base_url hy2_node_name in
  print (NL ++ py "=== Hysteria2 服务器启动成功 ===");;
  print (py "监听端口: " ++ port);;
  print (py "公网 IP: " ++ public_ip);;
  print (py "节点名称: " ++ hy2_node_name);;
  binary ← the_binary;
  print (py "当前二进制文件: " ++ path_name binary);;
  print (py "工作目录: " ++ path_str (WORK_DIR h) ++ NL);;
  print (py "客户端连接链接（自签证书，需要允许不安全）：");;
  print (NL ++ ESC ++ py "[92m" ++ client_url ++ ESC ++ py "[m" ++ NL);;
  print (py "提示：");;
  print (py "- 可直接复制上方链接导入 v2rayNG / NekoBox / Clash Meta 等客户端");;
  print (py "- 节点将在客户端显示为："
         ++ (if nonempty hy2_node_name then hy2_node_name else py "默认名称"));;
  print (py "- 如果 IP 获取失败，请手动替换链接中的“你的服务器IP”");;
  print (py "- 日志输出开始（面板重启会自动运行）" ++ NL);;
  subprocess_run h
    [ path_str binary; py "server"; py "-c"; path_str (CONFIG_FILE h) ] false.

Definition main : prog unit :=
  print (py "=== Hysteria2 容器专用启动脚本（工作目录为当前路径）===");;
  print (py "当前工作目录: " ++ path_str (WORK_DIR h));;
  load_dotenv h;;
  download_hysteria2;;
  generate_self_signed_cert h;;
  generate_config;;
  sleep 2;;
  run_hysteria2.

End Bot.
End Bot.

(** ** Definitions for the statements and their proofs *)

Definition same_environ (st st' : state) : Prop := environ st' = environ st.
Definition same_fs (st st' : state) : Prop := fs st' = fs st.
Definition same_binary (st st' : state) : Prop := HY2_BINARY st' = HY2_BINARY st.
Definition extends (P : event -> bool) (st st' : state) : Prop :=
  exists tr, trace st' = trace st ++ tr /\ forallb P tr = true.
Definition rel_and (R1 R2 : state -> state -> Prop) (st st' : state) : Prop :=
  R1 st st' /\ R2 st st'.

Definition good {A} (ar : exn -> Prop) (ax : Z -> Prop) (r : result A) : Prop :=
  match r with
  | Return _ => True
  | Raise e => ar e
  | Exit c => ax c
  end.

Definition runs (R : state -> state -> Prop) (ar : exn -> Prop) (ax : Z -> Prop)
    {A} (m : prog A) : Prop :=
  forall st, R st (m st).2 /\ good ar ax (m st).1.

Definition any {A} : A -> Prop := fun _ => True.
Definition never {A} : A -> Prop := fun _ => False.

Fixpoint starts_with (p s : str) : bool :=
  match p, s with
  | [], _ => true
  | a :: p', b :: s' => (a =? b) && starts_with p' s'
  | _ :: _, [] => false
  end.

(** The line that carries the connection link. *)
Definition link_line (url : str) : event :=
  EPrint (NL ++ ESC ++ py "[92m" ++ url ++ ESC ++ py "[m" ++ NL).

Definition is_link_line (e : event) : bool :=
  match e with
  | EPrint text => starts_with (NL ++ ESC ++ py "[92m") text
  | _ => false
  end.

(** The start of the server: a [subprocess.run] whose first argument is
    "server". *)
Definition is_launch (e : event) : bool :=
  match e with
  | ERun (_ :: a :: _) _ => bool_decide (a = py "server")
  | _ => false
  end.

Definition is_sleep (e : event) : bool :=
  match e with ESleep _ => true | _ => false end.

Definition is_print (e : event) : bool :=
  match e with EPrint _ => true | _ => false end.

(** What the steps before the sleep may do, and the probing of the
    address: anything but sleeping, printing the link and starting the
    server. *)
Definition prelude (e : event) : bool :=
  negb (is_launch e) && negb (is_sleep e) && negb (is_link_line e).

Definition exit1 (c : Z) : Prop := c = 1%Z.

Definition quiet : state -> state -> Prop :=
  rel_and same_environ (rel_and same_binary (extends prelude)).

(** What the loop of [load_dotenv] makes of one line. *)
Inductive line_kind :=
| Skipped                      (* blank, or a comment *)
| Assigned (key value : str)   (* KEY=VALUE *)
| Rejected (e : exn).          (* no "=", or a name os.environ refuses *)

Definition unpack_error : exn :=
  {| exn_cls := ValueError;
     exn_msg := py "not enough values to unpack (expected 2, got 1)" |}.

Definition classify (line : str) : line_kind :=
  let line := strip line in
  if nonempty line && negb (startswith 35 line) then
    match split1 61 line with
    | None => Rejected unpack_error
    | Some (k, v) =>
      let key := strip k in
      let value := strip v in
      if has_char 0 key || has_char 0 value then
        Rejected {| exn_cls := ValueError; exn_msg := py "embedded null byte" |}
      else if has_char 61 key then
        Rejected {| exn_cls := ValueError;
                    exn_msg := py "illegal environment variable name" |}
      else if nonempty key then Assigned key value
      else Rejected {| exn_cls := OSError;
                       exn_msg := py "[Errno 22] Invalid argument" |}
    end
  else Skipped.

Definition assign (env : gmap (list N) (list N)) (line : str) : gmap (list N) (list N) :=
  match classify line with
  | Assigned k v => <[k := v]> env
  | _ => env
  end.

Definition is_rejected (line : str) : bool :=
  match classify line with Rejected _ => true | _ => false end.

Definition dotenv_line (line : str) : prog unit :=
  let line := strip line in
  when_ (nonempty line && negb (startswith 35 line)) (
    kv ← unpack2 (split1 61 line);
    environ_setitem (strip kv.1) (strip kv.2)).

Fixpoint accepted_prefix (lines : list str) : list str :=
  match lines with
  | [] => []
  | l :: r => if is_rejected l then [] else l :: accepted_prefix r
  end.

Definition dotenv_environ (h : host) (st : state) : gmap (list N) (list N) :=
  match fs st !! path_str (ENV_FILE h) with
  | Some f => foldl assign (environ st) (accepted_prefix (splitlines (content f)))
  | None => environ st
  end.

Definition answer (h : host) (source : str) : option str :=
  match urlopen_body h source with
  | inl body => let ip := strip body in if nonempty ip then Some ip else None
  | inr _ => None
  end.

Fixpoint first_answer (h : host) (sources : list str) : option str :=
  match sources with
  | [] => None
  | s :: r =>
    match answer h s with
    | Some ip => Some ip
    | None => first_answer h r
    end
  end.

Fixpoint tried (h : host) (sources : list str) : list str :=
  match sources with
  | [] => []
  | s :: r => s :: match answer h s with Some _ => [] | None => tried h r end
  end.

Definition requested (tr : list event) : list str :=
  omap (fun e => match e with EUrlopen u _ => Some u | _ => None end) tr.

Definition probe (h : host) (source : str) : prog (option str) :=
  try_except
    (body ← urlopen_read h source 5;
     let ip := strip body in
     if nonempty ip then
       print (py "自动获取公网 IP 成功（来源: " ++ source ++ py "）：" ++ ip);;
       mret (Some ip)
     else mret None)
    (fun _ => mret None).

Definition getd (st : state) (key dflt : string) : str :=
  default (py dflt) (environ st !! py key).

Definition launch_event (binary : Path) (h : host) : event :=
  ERun [ path_str binary; py "server"; py "-c"; path_str (CONFIG_FILE h) ] false.

Definition info_lines (port public_ip hy2_node_name work_dir url : str)
    (binary_line : list event) : list event :=
  [ EPrint (NL ++ py "=== Hysteria2 服务器启动成功 ===");
    EPrint (py "监听端口: " ++ port);
    EPrint (py "公网 IP: " ++ public_ip);
    EPrint (py "节点名称: " ++ hy2_node_name) ]
  ++ binary_line ++
  [ EPrint (py "工作目录: " ++ work_dir ++ NL);
    EPrint (py "客户端连接链接（自签证书，需要允许不安全）：");
    link_line url;
    EPrint (py "提示：");
    EPrint (py "- 可直接复制上方链接导入 v2rayNG / NekoBox / Clash Meta 等客户端");
    EPrint (py "- 节点将在客户端显示为："
            ++ (if nonempty hy2_node_name then hy2_node_name else py "默认名称"));
    EPrint (py "- 如果 IP 获取失败，请手动替换链接中的“你的服务器IP”");
    EPrint (py "- 日志输出开始（面板重启会自动运行）" ++ NL) ].

Definition the_url (h : host) (st : state) : str :=
  client_url
    (base_url (getd st "HY2_PASSWORD" "[未设置]")
       (default (py "你的服务器IP") (first_answer h ip_sources))
       (getd st "HY2_PORT" "7102") (getd st "FAKE_DOMAIN" "bing.com"))
    (strip (getd st "HY2_NODE_NAME" "Hysteria2 Node")).

Definition the_info (h : host) (st : state) (binary_line : list event) : list event :=
  info_lines (getd st "HY2_PORT" "7102")
    (default (py "你的服务器IP") (first_answer h ip_sources))
    (strip (getd st "HY2_NODE_NAME" "Hysteria2 Node"))
    (path_str (WORK_DIR h)) (the_url h st) binary_line.

Definition startup (h : host) (download generate_config run : prog unit)
    : prog unit :=
  print (py "=== Hysteria2 容器专用启动脚本（工作目录为当前路径）===");;
  print (py "当前工作目录: " ++ path_str (WORK_DIR h));;
  load_dotenv h;;
  download;;
  generate_self_signed_cert h;;
  generate_config;;
  sleep 2;;
  run.

Definition banner (h : host) : list event :=
  [ EPrint (py "=== Hysteria2 容器专用启动脚本（工作目录为当前路径）===");
    EPrint (py "当前工作目录: " ++ path_str (WORK_DIR h)) ].

Definition after_banner (h : host) (st : state) : state :=
  emit (EPrint (py "当前工作目录: " ++ path_str (WORK_DIR h)))
    (emit (EPrint (py "=== Hysteria2 容器专用启动脚本（工作目录为当前路径）===")) st).

Inductive script := Plain | Obfuscated.

Definition main_of (v : script) (h : host) : prog unit :=
  match v with Plain => App.main h | Obfuscated => Bot.main h end.
Definition download_of (v : script) (h : host) : prog unit :=
  match v with
  | Plain => App.download_hysteria2 h
  | Obfuscated => Bot.download_hysteria2 h
  end.
Definition generate_config_of (v : script) (h : host) : prog unit :=
  match v with
  | Plain => App.generate_config h
  | Obfuscated => Bot.generate_config h
  end.
Definition run_of (v : script) (h : host) : prog unit :=
  match v with
  | Plain => App.run_hysteria2 h
  | Obfuscated => Bot.run_hysteria2 h
  end.

Definition no_launch (tr : list event) : Prop :=
  forallb (fun e => negb (is_launch e)) tr = true.

Definition calm (e : event) : bool := negb (is_launch e) && negb (is_sleep e).

(** A name that is one path component. *)
Definition plain_name (name : str) : Prop :=
  path_of name = {| anchor := []; parts := [name] |}.

(** The text that [str(d / name)] puts before [name]. *)
Definition dir_prefix (d : Path) : str :=
  anchor d ++ concat (map (fun c => c ++ [SLASH]) (parts d)).

Definition download_url (st : state) : str :=
  py "https://github.com/apernet/hysteria/releases/latest/download/"
  ++ py "hysteria-linux-" ++ lower (default (py "amd64") (environ st !! py "ARCH")).

Definition temp_binary (h : host) : Path :=
  truediv (WORK_DIR h) (py "temp-binary").

(** The recorded binary, when [.bin_name] names a file that exists and can
    be executed. *)
Definition recorded_binary (h : host) (st : state) : option Path :=
  match fs st !! path_str (Bot.BINARY_RECORD h) with
  | Some f =>
    let candidate := truediv (WORK_DIR h) (strip (content f)) in
    match fs st !! path_str candidate with
    | Some binary => if executable binary then Some candidate else None
    | None => None
    end
  | None => None
  end.

(** A sample host for the examples: a container under /home/container
    whose [int] reads plain decimal digits, whose third address service
    answers, whose downloads succeed and whose openssl writes the key and
    the certificate. *)
Fixpoint digits_value (acc : Z) (s : str) : option Z :=
  match s with
  | [] => Some acc
  | c :: r =>
    if (48 <=? c) && (c <=? 57)
    then digits_value (acc * 10 + Z.of_N (c - 48)) r
    else None
  end.

Definition plain_int (s : str) : option Z :=
  match s with [] => None | _ => digits_value 0 s end.

Definition demo_host : host := {|
  cwd := py "/home/container";
  py_int := plain_int;
  urlopen_body := fun url =>
    if bool_decide (url = py "https://icanhazip.com")
    then inl (py "203.0.113.7" ++ NL) else inr (py "timed out");
  urlretrieve_outcome := fun _ => Retrieved [127; 69; 76; 70];
  subprocess_outcome := fun argv =>
    match argv with
    | [] => NotStarted []
    | a :: _ =>
      if bool_decide (a = py "openssl")
      then Completed [ (py "/home/container/cert.key", py "KEY");
                       (py "/home/container/cert.crt", py "CERT") ] 0
      else Completed [] 0
    end;
  called_process_error := fun _ _ => [];
  random_choices := fun _ _ => py "k3v9x0q2m7c1z8a4"
|}.


(** A process at its start. *)
Definition boot (env : list (str * str)) (files : list (str * file)) : state :=
  {| environ := list_to_map env; fs := list_to_map files; trace := [];
     HY2_BINARY := None |}.

Definition text_file (text : str) : file := {| content := text; mode := 420 |}.

(** A working directory in which an earlier run left everything. *)
Definition installed : list (str * file) :=
  [ (py "/home/container/hysteria", {| content := [127; 69; 76; 70]; mode := 493 |});
    (py "/home/container/cert.crt", text_file (py "CERT"));
    (py "/home/container/cert.key", {| content := py "KEY"; mode := 384 |});
    (py "/home/container/config.yaml", text_file (py "listen: :443" ++ NL)) ].

(** The rendered config, line by line; the plain script separates its four
    blocks by an empty line, the obfuscating one does not. *)
Definition config_lines (v : script) (h : host) (port : Z)
    (password masquerade_url : str) : list str :=
  let gap := match v with Plain => [[]] | Obfuscated => [] end in
  [ py "listen: :" ++ str_of_int port ] ++ gap ++
  [ py "tls:";
    py "  cert: " ++ path_str (CERT_FILE h);
    py "  key: " ++ path_str (KEY_FILE h) ] ++ gap ++
  [ py "auth:";
    py "  type: password";
    py "  password: " ++ password ] ++ gap ++
  [ py "masquerade:";
    py "  type: proxy";
    py "  proxy:";
    py "    url: " ++ masquerade_url;
    py "    rewriteHost: true" ].

(** The lines of a run that carry a connection link. *)
Definition links (tr : list event) : list event := List.filter is_link_line tr.

(** The obfuscating script after its download, with a blank node name. *)
Definition blank_name_state : state :=
  set_binary (Some (truediv (WORK_DIR demo_host) (py "k3v9x0q2m7c1z8a4")))
    (boot [(py "HY2_PASSWORD", py "secret"); (py "HY2_NODE_NAME", py " ")] []).

(** A working directory with everything installed and a .env file. *)
Definition with_dotenv (text : str) : list (str * file) :=
  (py "/home/container/.env", text_file text) :: installed.

(** The lines of a .env text that are read before the loading stops. *)
Definition accepted (lines : list str) : Prop :=
  forallb (fun l => negb (is_rejected l)) lines = true.

(** Nothing, or a rejected line, follows. *)
Definition stops_at (rest : list str) : Prop :=
  match rest with [] => True | bad :: _ => is_rejected bad = true end.

(** The value that the last line assigning [key] gives it. *)
Definition last_assigned (key : str) (lines : list str) : option str :=
  foldl (fun acc line =>
           match classify line with
           | Assigned k v => if decide (k = key) then Some v else acc
           | _ => acc
           end) None lines.

(** A process that has BAR in its environment and a .env that sets it
    twice. *)
Definition bar_state : state :=
  boot [(py "BAR", py "0")] (with_dotenv (py "BAR=1" ++ NL ++ py "BAR = 2" ++ NL)).



(** An installed container that is ready to start. *)
Definition ready_state : state :=
  boot [(py "HY2_PASSWORD", py "secret")] installed.

(** ** Definitions for the further properties of the steps *)

(** The command line of [generate_self_signed_cert]. *)
Definition openssl_argv (h : host) (st : state) : list str :=
  [ py "openssl"; py "req"; py "-x509"; py "-nodes"; py "-days"; py "36500";
    py "-newkey"; py "rsa:2048";
    py "-keyout"; path_str (KEY_FILE h);
    py "-out"; path_str (CERT_FILE h);
    py "-subj"; py "/CN=" ++ default (py "bing.com") (environ st !! py "FAKE_DOMAIN") ].

(** The files after a process wrote [writes]. *)
Definition written (writes : list (str * list N)) (m : gmap (list N) file)
    : gmap (list N) file :=
  foldl (fun m w => store w.1 w.2 m) m writes.

(** What [random.choices(alphabet, k=16)] can return. *)
Definition random_name_ok (name : str) : Prop :=
  length name = 16%nat
  /\ forallb (fun c => existsb (N.eqb c) Bot.alphabet) name = true.

(** The command line of the server. *)
Definition server_argv (binary : Path) (h : host) : list str :=
  [ path_str binary; py "server"; py "-c"; path_str (CONFIG_FILE h) ].

(** How [subprocess.run(argv)] without [check] ends. *)
Definition unchecked_run (h : host) (argv : list str) : result unit :=
  match subprocess_outcome h argv with
  | Completed _ _ => Return ()
  | NotStarted msg => Raise {| exn_cls := OSError; exn_msg := msg |}
  end.

(** The files that [download_hysteria2] may create, replace or remove. *)
Definition download_files (v : script) (h : host) : list Path :=
  match v with
  | Plain => [ App.HY2_BINARY h ]
  | Obfuscated =>
    [ temp_binary h; truediv (WORK_DIR h) (random_choices h Bot.alphabet 16);
      Bot.BINARY_RECORD h ]
  end.

(** A container that has only its password. *)
Definition fresh_state : state := boot [(py "HY2_PASSWORD", py "secret")] [].

(** The sample container without openssl. *)
Definition no_openssl_host : host := {|
  cwd := cwd demo_host;
  py_int := py_int demo_host;
  urlopen_body := urlopen_body demo_host;
  urlretrieve_outcome := urlretrieve_outcome demo_host;
  subprocess_outcome := fun _ =>
    NotStarted (py "[Errno 2] No such file or directory: 'openssl'");
  called_process_error := called_process_error demo_host;
  random_choices := random_choices demo_host
|}.

(** A container in which an earlier run of the obfuscating script left its
    binary and the record of its name. *)
Definition recorded_state : state :=
  boot [(py "HY2_PASSWORD", py "secret")]
    [ (py "/home/container/.bin_name", text_file (py "k3v9x0q2m7c1z8a4" ++ NL));
      (py "/home/container/k3v9x0q2m7c1z8a4",
       {| content := [127; 69; 76; 70]; mode := 493 |}) ].

(** A password from the panel and a .env that sets something else. *)
Definition mixed_state : state :=
  boot [(py "HY2_PASSWORD", py "secret"); (py "BAR", py "0")]
    (with_dotenv (py "BAR=1" ++ NL)).

(** A .env whose only line has blanks around the name and "=" and "#" in
    the value. *)
Definition spaced_state : state :=
  boot [] (with_dotenv (py " HY2_PASSWORD " ++ [61] ++ py " a=b#c " ++ NL)).

(** * Properties *)

(** ** The library functions on sample inputs *)

Example py_placeholder :
  py "你的服务器IP" = [20320; 30340; 26381; 21153; 22120; 73; 80].
Proof. reflexivity. Qed.

Example strip_example :
  strip ([32; 9] ++ py "KEY" ++ [32; 12288; 10]) = py "KEY".
Proof. reflexivity. Qed.

Example splitlines_example :
  splitlines [97; 13; 10; 98; 10; 10; 99; 10] = [[97]; [98]; []; [99]]
  /\ splitlines [] = [] /\ splitlines [10] = [[]]
  /\ splitlines [97; 13; 13; 10; 98] = [[97]; []; [98]].
Proof. repeat split; reflexivity. Qed.

Example split1_example :
  split1 61 (py "a=b=c") = Some (py "a", py "b=c")
  /\ split1 61 (py "FOO") = None
  /\ split1 61 (py "=x") = Some ([], py "x").
Proof. repeat split; reflexivity. Qed.

Example str_of_int_example :
  str_of_int 7102 = py "7102" /\ str_of_int (-5) = py "-5"
  /\ str_of_int 0 = py "0".
Proof. repeat split; reflexivity. Qed.

Example path_examples :
  let d := path_of (py "/home/container") in
  path_str (truediv d (py "cert.crt")) = py "/home/container/cert.crt"
  /\ path_str (truediv d []) = py "/home/container"
  /\ path_str (truediv d (py "//abs/x")) = py "//abs/x"
  /\ path_str (truediv d (py "///abs")) = py "/abs"
  /\ path_str (truediv d (py "a//b/./c/")) = py "/home/container/a/b/c"
  /\ path_str (truediv (path_of (py "/")) (py "x")) = py "/x"
  /\ path_name (truediv d (py "a/..")) = py ".."
  /\ path_name (path_of (py "/")) = [].
Proof. repeat split; reflexivity. Qed.

Arguments py : simpl never.
Arguments path_str : simpl never.
Arguments truediv : simpl never.
Arguments strip : simpl never.

#[global] Instance same_environ_po : PreOrder same_environ.
Proof. split; [done | intros a b c; unfold same_environ; congruence]. Qed.
#[global] Instance same_fs_po : PreOrder same_fs.
Proof. split; [done | intros a b c; unfold same_fs; congruence]. Qed.
#[global] Instance same_binary_po : PreOrder same_binary.
Proof. split; [done | intros a b c; unfold same_binary; congruence]. Qed.
#[global] Instance extends_po P : PreOrder (extends P).
Proof.
  split.
  - intros st. exists []. by rewrite app_nil_r.
  - intros a b c [t1 [E1 F1]] [t2 [E2 F2]]. exists (t1 ++ t2). split.
    + by rewrite E2, E1, app_assoc.
    + rewrite forallb_app. by rewrite F1, F2.
Qed.
#[global] Instance rel_and_po R1 R2 `{!PreOrder R1, !PreOrder R2} :
  PreOrder (rel_and R1 R2).
Proof.
  split.
  - intros st. split; reflexivity.
  - intros a b c [H1 H2] [H3 H4]. split; etransitivity; eauto.
Qed.

Section Runs.
Context (R : state -> state -> Prop) `{!PreOrder R}.
Context (ar : exn -> Prop) (ax : Z -> Prop).

Lemma runs_ret {A} (a : A) : runs R ar ax (mret a).
Proof. intros st. split; [reflexivity | exact I]. Qed.

Lemma runs_bind {A B} (m : prog A) (f : A -> prog B) :
  runs R ar ax m -> (forall a, runs R ar ax (f a)) -> runs R ar ax (m ≫= f).
Proof.
  intros Hm Hf st. unfold mbind, prog_bind.
  destruct (Hm st) as [H1 H2]. destruct (m st) as [[a|e|c] st1]; simpl in *; auto.
  destruct (Hf a st1) as [H3 H4]. split; [etransitivity; eauto | done].
Qed.

Lemma runs_fmap {A B} (g : A -> B) (m : prog A) :
  runs R ar ax m -> runs R ar ax (g <$> m).
Proof. intros Hm. apply runs_bind; [done | intros; apply runs_ret]. Qed.

Lemma runs_raise {A} e : ar e -> runs R ar ax (@raise A e).
Proof. intros He st. split; [reflexivity | exact He]. Qed.

Lemma runs_sys_exit {A} c : ax c -> runs R ar ax (@sys_exit A c).
Proof. intros Hc st. split; [reflexivity | exact Hc]. Qed.

Lemma runs_try_except {A} (body : prog A) handler :
  runs R any ax body -> (forall e, runs R ar ax (handler e)) ->
  runs R ar ax (try_except body handler).
Proof.
  intros Hb Hh st. unfold try_except.
  destruct (Hb st) as [H1 H2]. destruct (body st) as [[a|e|c] st1]; simpl in *; auto.
  destruct (Hh e st1) as [H3 H4]. split; [etransitivity; eauto | done].
Qed.

Lemma runs_try_except_only {A} cls (body : prog A) handler :
  runs R (fun e => exn_cls e <> cls -> ar e) ax body -> runs R ar ax handler ->
  runs R ar ax (try_except_only cls body handler).
Proof.
  intros Hb Hh st. unfold try_except_only.
  destruct (Hb st) as [H1 H2]. destruct (body st) as [[a|e|c] st1]; simpl in *; auto.
  destruct (Hh st1) as [H3 H4].
  destruct (exn_cls e) eqn:E, cls; simpl;
    try (split; [etransitivity; eauto | done]);
    (split; [done | apply H2; congruence]).
Qed.

Lemma runs_when c (body : prog unit) :
  runs R ar ax body -> runs R ar ax (when_ c body).
Proof. intros Hb. destruct c; simpl; [done | apply runs_ret]. Qed.

Lemma runs_for {A} (l : list A) body :
  (forall x, runs R ar ax (body x)) -> runs R ar ax (for_ l body).
Proof.
  intros Hb. induction l as [|x l IH]; simpl.
  - apply runs_ret.
  - apply runs_bind; auto.
Qed.

Lemma runs_for_return {A B} (l : list A) (body : A -> prog (option B)) :
  (forall x, runs R ar ax (body x)) -> runs R ar ax (for_return l body).
Proof.
  intros Hb. induction l as [|x l IH]; simpl.
  - apply runs_ret.
  - apply runs_bind; [auto | intros [b|]; [apply runs_ret | exact IH]].
Qed.
End Runs.

Lemma runs_and R1 R2 ar ax {A} (m : prog A) :
  runs R1 ar ax m -> runs R2 ar ax m -> runs (rel_and R1 R2) ar ax m.
Proof. intros H1 H2 st. destruct (H1 st), (H2 st). by repeat split. Qed.

Lemma extends_same P st st' : trace st' = trace st -> extends P st st'.
Proof. intros E. exists []. by rewrite app_nil_r. Qed.

Lemma extends_one P e st st' :
  trace st' = trace st ++ [e] -> P e = true -> extends P st st'.
Proof. intros E He. exists [e]. simpl. by rewrite He. Qed.

Ltac leaf_rel :=
  unfold rel_and, same_environ, same_fs, same_binary, good, any, never;
  cbn [fst snd];
  repeat split;
  first
    [ reflexivity
    | apply extends_same; reflexivity
    | eapply extends_one; [reflexivity | reflexivity]
    | simpl; intros; congruence ].

(** A statement that does one thing: unfold it and look at each outcome. *)
Ltac leaf :=
  let st := fresh "st" in
  intros st;
  cbv [print getenv getenv_default exists_ access_x read_text write_text chmod
       unlink rename sleep environ_setitem unpack2 int_ urlopen_read
       urlretrieve subprocess_run raise sys_exit mret prog_ret
       Bot.assign_HY2_BINARY Bot.the_binary];
  repeat case_match;
  leaf_rel.

(** A file that [exists] can be read and unlinked. *)
Lemma runs_read_if_exists R `{!PreOrder R} ar ax {A B} p (g : str -> A)
    (k : A -> prog bool) (k2 : bool -> prog B) :
  (forall x, runs R ar ax (k x ≫= k2)) -> runs R ar ax (k2 false) ->
  runs R ar ax
    (exists_ p ≫= fun b : bool =>
       (if b then (g <$> read_text p) ≫= k else mret false) ≫= k2).
Proof.
  intros Hk Hk2 st.
  cbv [exists_ read_text mbind prog_bind fmap prog_fmap mret prog_ret].
  destruct (fs st !! path_str p) as [f|] eqn:E.
  - rewrite bool_decide_eq_true_2 by eauto. rewrite E.
    specialize (Hk (g (content f)) st).
    cbv [mbind prog_bind] in Hk. exact Hk.
  - rewrite bool_decide_eq_false_2 by (intros [? ?]; congruence).
    apply Hk2.
Qed.

Lemma runs_unlink_if_exists R `{!PreOrder R} ar ax {B} p (k2 : unit -> prog B) :
  (forall st f, R st (set_fs f st)) ->
  (forall u, runs R ar ax (k2 u)) ->
  runs R ar ax (exists_ p ≫= fun b : bool => when_ b (unlink p) ≫= k2).
Proof.
  intros HR Hk2 st.
  cbv [exists_ unlink when_ mbind prog_bind mret prog_ret].
  destruct (fs st !! path_str p) as [f|] eqn:E.
  - rewrite bool_decide_eq_true_2 by eauto. rewrite E.
    destruct (Hk2 () (set_fs (delete (path_str p) (fs st)) st)) as [H1 H2].
    split; [ | exact H2 ].
    etransitivity; [ apply HR | exact H1 ].
  - rewrite bool_decide_eq_false_2 by (intros [? ?]; congruence).
    apply Hk2.
Qed.

Ltac structure :=
  repeat first
    [ lazymatch goal with
      | |- runs _ _ _ (mret _) => apply runs_ret; tc_solve
      | |- runs _ _ _ (mbind _ (exists_ ?p)) =>
        first
          [ apply runs_read_if_exists; [ tc_solve | intros ? | ]
          | apply runs_unlink_if_exists;
            [ tc_solve | intros ? ?; solve [leaf_rel] | intros ? ]
          | apply runs_bind; [ tc_solve | | intros ? ] ]
      | |- runs _ _ _ (mbind _ _) => apply runs_bind; [ tc_solve | | intros ? ]
      | |- runs _ _ _ (fmap _ _) => apply runs_fmap; [ tc_solve | ]
      | |- runs _ _ _ (try_except _ _) =>
        apply runs_try_except; [ tc_solve | | intros ? ]
      | |- runs _ _ _ (try_except_only _ _ _) =>
        apply runs_try_except_only; [ tc_solve | | ]
      | |- runs _ _ _ (when_ _ _) => apply runs_when; [ tc_solve | ]
      | |- runs _ _ _ (for_ _ _) => apply runs_for; [ tc_solve | intros ? ]
      | |- runs _ _ _ (for_return _ _) =>
        apply runs_for_return; [ tc_solve | intros ? ]
      | |- runs _ _ _ (sys_exit _) => apply runs_sys_exit; [ tc_solve | done ]
      | |- runs _ _ _ (if ?b then _ else _) => destruct b
      | |- runs _ _ _ (match ?x with _ => _ end) => destruct x
      | |- runs _ _ _ (let _ := _ in _) => cbv zeta
      end
    | solve [leaf] ].

Lemma load_dotenv_runs h :
  runs (rel_and same_fs (rel_and same_binary (extends prelude))) never never (load_dotenv h).
Proof. unfold load_dotenv. structure. Qed.

Lemma get_public_ip_runs h :
  runs (rel_and same_fs quiet) never never (get_public_ip h).
Proof. unfold get_public_ip, quiet. structure. Qed.

Lemma generate_self_signed_cert_runs h :
  runs quiet never exit1 (generate_self_signed_cert h).
Proof. unfold generate_self_signed_cert, quiet, exit1. structure. Qed.

Lemma generate_config_with_runs h render :
  runs quiet never exit1 (generate_config_with h render).
Proof. unfold generate_config_with, quiet, exit1. structure. Qed.

Lemma app_download_runs h :
  runs quiet never exit1 (App.download_hysteria2 h).
Proof. unfold App.download_hysteria2, quiet, exit1. structure. Qed.

Lemma bot_download_runs h :
  runs (rel_and same_environ (extends prelude)) never exit1 (Bot.download_hysteria2 h).
Proof. unfold Bot.download_hysteria2, exit1. structure. Qed.

Ltac run :=
  cbv [mbind prog_bind mret prog_ret fmap prog_fmap when_ try_except
       try_except_only print getenv getenv_default exists_ access_x read_text
       write_text chmod unlink rename sleep raise sys_exit int_
       urlretrieve subprocess_run urlopen_read].




Lemma generate_config_with_writes h render st pw n :
  environ st !! py "HY2_PASSWORD" = Some pw -> nonempty pw = true ->
  py_int h (default (py "7102") (environ st !! py "HY2_PORT")) = Some n ->
  exists st',
    generate_config_with h render st = (Return (), st')
    /\ fs st' = store (path_str (CONFIG_FILE h))
                  (render n pw (default (py "https://www.bing.com")
                                  (environ st !! py "MASQUERADE_URL")))
                  (fs st)
    /\ environ st' = environ st.
Proof.
  intros E1 E2 E3. unfold generate_config_with. run.
  rewrite E1. simpl. rewrite E2. simpl. rewrite E3. simpl.
  eexists. repeat split; reflexivity.
Qed.

Lemma generate_config_with_no_password h render st :
  nonempty (default [] (environ st !! py "HY2_PASSWORD")) = false ->
  exists st',
    generate_config_with h render st = (Exit 1, st') /\ fs st' = fs st.
Proof.
  intros E1. unfold generate_config_with. run.
  rewrite E1. simpl. eexists. split; reflexivity.
Qed.

Lemma generate_config_with_bad_port h render st :
  py_int h (default (py "7102") (environ st !! py "HY2_PORT")) = None ->
  exists st',
    generate_config_with h render st = (Exit 1, st') /\ fs st' = fs st.
Proof.
  intros E1. unfold generate_config_with. run.
  destruct (negb _); simpl.
  - eexists. split; reflexivity.
  - rewrite E1. simpl. eexists. split; reflexivity.
Qed.

Lemma dotenv_line_classify line st :
  dotenv_line line st =
  match classify line with
  | Skipped => (Return (), st)
  | Assigned k v => (Return (), set_environ (<[k := v]> (environ st)) st)
  | Rejected e => (Raise e, st)
  end.
Proof.
  unfold dotenv_line, classify. cbv zeta.
  destruct (nonempty (strip line) && negb (startswith 35 (strip line))); [ | reflexivity ].
  cbv [when_ unpack2 mbind prog_bind mret prog_ret raise environ_setitem].
  destruct (split1 61 (strip line)) as [[k v]|]; [ | reflexivity ].
  cbn [fst snd].
  destruct (has_char 0 (strip k) || has_char 0 (strip v)); [ reflexivity | ].
  destruct (has_char 61 (strip k)); [ reflexivity | ].
  destruct (nonempty (strip k)); reflexivity.
Qed.

Lemma set_environ_same st : set_environ (environ st) st = st.
Proof. by destruct st. Qed.

Lemma dotenv_loop_accepted lines st :
  forallb (fun l => negb (is_rejected l)) lines = true ->
  for_ lines dotenv_line st
  = (Return (), set_environ (foldl assign (environ st) lines) st).
Proof.
  revert st. induction lines as [|l lines IH]; intros st Hok.
  - simpl. by rewrite set_environ_same.
  - simpl in Hok. apply andb_prop in Hok as [Hl Hok].
    cbn [for_ foldl]. unfold mbind, prog_bind.
    rewrite dotenv_line_classify. unfold is_rejected in Hl. unfold assign at 2.
    destruct (classify l) as [|k v|e]; [ | | done ].
    + by rewrite IH.
    + rewrite IH by done. reflexivity.
Qed.

Lemma dotenv_loop_rejected pre bad post st :
  forallb (fun l => negb (is_rejected l)) pre = true ->
  is_rejected bad = true ->
  exists e,
    classify bad = Rejected e /\
    for_ (pre ++ bad :: post) dotenv_line st
    = (Raise e, set_environ (foldl assign (environ st) pre) st).
Proof.
  revert st. induction pre as [|l pre IH]; intros st Hok Hbad.
  - unfold is_rejected in Hbad. destruct (classify bad) as [| |e] eqn:E; try done.
    exists e. split; [done|]. cbn [app for_ foldl]. unfold mbind, prog_bind.
    rewrite dotenv_line_classify, E. by rewrite set_environ_same.
  - simpl in Hok. apply andb_prop in Hok as [Hl Hok].
    cbn [app for_ foldl]. unfold mbind, prog_bind.
    rewrite dotenv_line_classify. unfold is_rejected in Hl. unfold assign at 2.
    destruct (classify l) as [|k v|e0]; [ | | done ].
    + destruct (IH st Hok Hbad) as [e [E1 E2]]. exists e. by rewrite E2.
    + destruct (IH (set_environ (<[k:=v]> (environ st)) st) Hok Hbad) as [e [E1 E2]].
      exists e. split; [done|]. rewrite E2. reflexivity.
Qed.

Lemma accepted_prefix_split pre rest :
  forallb (fun l => negb (is_rejected l)) pre = true ->
  match rest with [] => True | bad :: _ => is_rejected bad = true end ->
  accepted_prefix (pre ++ rest) = pre.
Proof.
  intros Hpre Hrest. induction pre as [|l pre IH]; simpl in *.
  - destruct rest as [|bad post]; [done|]. simpl. by rewrite Hrest.
  - apply andb_prop in Hpre as [Hl Hpre].
    destruct (is_rejected l); [done|]. by rewrite IH.
Qed.

Lemma accepted_prefix_accepted lines :
  forallb (fun l => negb (is_rejected l)) (accepted_prefix lines) = true.
Proof.
  induction lines as [|l lines IH]; simpl; [done|].
  destruct (is_rejected l) eqn:E; simpl; [done|]. by rewrite E.
Qed.

Lemma accepted_prefix_rest lines :
  exists rest, lines = accepted_prefix lines ++ rest
    /\ match rest with [] => True | bad :: _ => is_rejected bad = true end.
Proof.
  induction lines as [|l lines [rest [E H]]]; simpl.
  - by exists [].
  - destruct (is_rejected l) eqn:El.
    + exists (l :: lines). by split.
    + exists rest. split; [simpl; congruence | done].
Qed.

Lemma dotenv_loop lines st :
  exists r,
    for_ lines dotenv_line st
    = (r, set_environ (foldl assign (environ st) (accepted_prefix lines)) st)
    /\ match r with
       | Return _ => accepted_prefix lines = lines
       | Raise e => exists pre bad post,
           lines = pre ++ bad :: post /\ accepted_prefix lines = pre
           /\ classify bad = Rejected e
       | Exit _ => False
       end.
Proof.
  destruct (accepted_prefix_rest lines) as [rest [E H]].
  pose proof (accepted_prefix_accepted lines) as Hok.
  destruct rest as [|bad post].
  - rewrite app_nil_r in E. symmetry in E.
    exists (Return ()). split; [ | done ].
    rewrite E. rewrite E in Hok. by apply dotenv_loop_accepted.
  - destruct (dotenv_loop_rejected (accepted_prefix lines) bad post st Hok H)
      as [e [E1 E2]].
    exists (Raise e). split.
    + rewrite E at 1. exact E2.
    + exists (accepted_prefix lines), bad, post. done.
Qed.

Lemma load_dotenv_spec h st :
  exists st',
    load_dotenv h st = (Return (), st')
    /\ environ st' = dotenv_environ h st
    /\ fs st' = fs st
    /\ HY2_BINARY st' = HY2_BINARY st
    /\ extends prelude st st'.
Proof.
  destruct (load_dotenv_runs h st) as [(Hfs & Hbin & Htr) Hgood].
  unfold dotenv_environ.
  destruct (load_dotenv h st) as [r st'] eqn:Erun. simpl in *.
  destruct r as [[]|e|c]; try done.
  exists st'. repeat split; try done.
  revert Erun. unfold load_dotenv.
  cbv [exists_ read_text when_ try_except mbind prog_bind mret prog_ret].
  destruct (fs st !! path_str (ENV_FILE h)) as [f|] eqn:E.
  - rewrite bool_decide_eq_true_2 by eauto.
    cbv [print]. cbn [fs emit]. rewrite E.
    change (for_ (splitlines (content f)) _) with
      (for_ (splitlines (content f)) dotenv_line).
    destruct (dotenv_loop (splitlines (content f))
                (emit (EPrint (py ".env 文件已检测到，正在加载...")) st))
      as [r [Eloop Hr]].
    rewrite Eloop. destruct r as [[]|e|c]; [ | | done ];
      intros [= <-]; reflexivity.
  - rewrite bool_decide_eq_false_2 by (intros [? ?]; congruence).
    by intros [= <-].
Qed.

Lemma dotenv_environ_emit h e st :
  dotenv_environ h (emit e st) = dotenv_environ h st.
Proof. reflexivity. Qed.

Lemma probe_spec h source st :
  exists st' tr,
    probe h source st = (Return (answer h source), st')
    /\ trace st' = trace st ++ tr /\ requested tr = [source]
    /\ environ st' = environ st /\ fs st' = fs st
    /\ HY2_BINARY st' = HY2_BINARY st.
Proof.
  unfold probe, answer.
  cbv [try_except urlopen_read mbind prog_bind mret prog_ret print].
  destruct (urlopen_body h source) as [body|msg]; cbv zeta.
  - destruct (nonempty (strip body)); eexists; eexists;
      (split; [reflexivity | ]); cbn [trace emit];
      [ rewrite <- app_assoc | ]; (split; [reflexivity | ]); by repeat split.
  - eexists; eexists. split; [reflexivity | ]. by repeat split.
Qed.

Lemma requested_app t1 t2 : requested (t1 ++ t2) = requested t1 ++ requested t2.
Proof. unfold requested. apply omap_app. Qed.

Lemma probes_spec h sources st :
  exists st' tr,
    for_return sources (probe h) st = (Return (first_answer h sources), st')
    /\ trace st' = trace st ++ tr /\ requested tr = tried h sources
    /\ environ st' = environ st /\ fs st' = fs st
    /\ HY2_BINARY st' = HY2_BINARY st.
Proof.
  revert st. induction sources as [|s r IH]; intros st.
  - exists st, []. rewrite app_nil_r. by repeat split.
  - destruct (probe_spec h s st) as (st1 & t1 & E1 & T1 & Q1 & V1 & F1 & B1).
    cbn [for_return first_answer tried]. unfold mbind, prog_bind. rewrite E1.
    destruct (answer h s) as [ip|].
    + exists st1, t1. by repeat split.
    + destruct (IH st1) as (st2 & t2 & E2 & T2 & Q2 & V2 & F2 & B2).
      exists st2, (t1 ++ t2). rewrite E2, T2, T1, requested_app, Q1, Q2, app_assoc.
      repeat split; congruence.
Qed.

Lemma get_public_ip_spec h st :
  exists st' tr,
    get_public_ip h st
    = (Return (default (py "你的服务器IP") (first_answer h (ip_sources))), st')
    /\ trace st' = trace st ++ tr /\ requested tr = tried h ip_sources
    /\ environ st' = environ st /\ fs st' = fs st
    /\ HY2_BINARY st' = HY2_BINARY st.
Proof.
  destruct (probes_spec h ip_sources st) as (st1 & t1 & E1 & T1 & Q1 & V1 & F1 & B1).
  unfold get_public_ip.
  change (for_return ip_sources _) with (for_return ip_sources (probe h)).
  unfold mbind at 1. unfold prog_bind at 1. rewrite E1.
  destruct (first_answer h ip_sources) as [ip|].
  - exists st1, t1. by repeat split.
  - cbv [mbind prog_bind print mret prog_ret]. eexists; eexists.
    split; [reflexivity | ]. cbn [trace emit environ fs HY2_BINARY].
    rewrite T1, <- app_assoc. split; [reflexivity | ].
    rewrite requested_app, Q1. simpl. rewrite app_nil_r. by repeat split.
Qed.

Lemma info_lines_prints port ip name wd url line :
  forallb is_print (info_lines port ip name wd url [EPrint line]) = true
  /\ forallb is_print (info_lines port ip name wd url []) = true.
Proof. split; reflexivity. Qed.

Lemma info_lines_link port ip name wd url :
  List.filter is_link_line (info_lines port ip name wd url []) = [link_line url].
Proof. reflexivity. Qed.

Lemma info_lines_link_bot port ip name wd url binary :
  List.filter is_link_line
    (info_lines port ip name wd url [EPrint (py "当前二进制文件: " ++ binary)])
  = [link_line url].
Proof. reflexivity. Qed.

Lemma get_public_ip_full h st :
  exists st' tr,
    get_public_ip h st
    = (Return (default (py "你的服务器IP") (first_answer h (ip_sources))), st')
    /\ trace st' = trace st ++ tr /\ requested tr = tried h ip_sources
    /\ forallb prelude tr = true
    /\ environ st' = environ st /\ fs st' = fs st
    /\ HY2_BINARY st' = HY2_BINARY st.
Proof.
  destruct (get_public_ip_spec h st) as (st1 & t1 & E1 & T1 & Q1 & V1 & F1 & B1).
  destruct (get_public_ip_runs h st) as [(_ & _ & _ & (t1' & T1' & P1)) _].
  rewrite E1 in T1'. cbn [snd] in T1'. rewrite T1 in T1'.
  apply app_inv_head in T1'. subst t1'.
  exists st1, t1. by repeat split.
Qed.

Lemma app_run_spec h st :
  exists r st' probes,
    App.run_hysteria2 h st = (r, st')
    /\ trace st' = trace st ++ probes ++ the_info h st []
                   ++ [launch_event (App.HY2_BINARY h) h]
    /\ requested probes = tried h ip_sources
    /\ forallb prelude probes = true
    /\ environ st' = environ st
    /\ (r = Return () \/ exists e, r = Raise e).
Proof.
  destruct (get_public_ip_full h st) as (st1 & t1 & E1 & T1 & Q1 & P1 & V1 & F1 & B1).
  unfold App.run_hysteria2. unfold mbind at 1. unfold prog_bind at 1.
  rewrite E1.
  cbv [mbind prog_bind mret prog_ret fmap prog_fmap getenv_default print
       subprocess_run].
  cbn [environ emit trace fst snd]. rewrite V1.
  destruct (subprocess_outcome h _) as [writes code|msg]; cbn [andb].
  - eexists; eexists; exists t1. split; [reflexivity | ].
    cbn [trace emit set_fs environ]. rewrite T1, <- !app_assoc.
    split; [ reflexivity | ]. repeat split; try done. by left.
  - eexists; eexists; exists t1. split; [reflexivity | ].
    cbn [trace emit set_fs environ]. rewrite T1, <- !app_assoc.
    split; [ reflexivity | ]. repeat split; try done. right; eauto.
Qed.

Lemma bot_run_spec h st binary :
  HY2_BINARY st = Some binary ->
  exists r st' probes,
    Bot.run_hysteria2 h st = (r, st')
    /\ trace st' = trace st ++ probes
         ++ the_info h st [EPrint (py "当前二进制文件: " ++ path_name binary)]
         ++ [launch_event binary h]
    /\ requested probes = tried h ip_sources
    /\ forallb prelude probes = true
    /\ environ st' = environ st
    /\ (r = Return () \/ exists e, r = Raise e).
Proof.
  intros Hbin.
  destruct (get_public_ip_full h st) as (st1 & t1 & E1 & T1 & Q1 & P1 & V1 & F1 & B1).
  unfold Bot.run_hysteria2. unfold mbind at 1. unfold prog_bind at 1.
  rewrite E1.
  cbv [mbind prog_bind mret prog_ret fmap prog_fmap getenv_default print
       subprocess_run Bot.the_binary].
  cbn [environ emit trace fst snd HY2_BINARY]. rewrite V1, B1, Hbin.
  destruct (subprocess_outcome h _) as [writes code|msg]; cbn [andb].
  - eexists; eexists; exists t1. split; [reflexivity | ].
    cbn [trace emit set_fs environ]. rewrite T1, <- !app_assoc.
    split; [ reflexivity | ]. repeat split; try done. by left.
  - eexists; eexists; exists t1. split; [reflexivity | ].
    cbn [trace emit set_fs environ]. rewrite T1, <- !app_assoc.
    split; [ reflexivity | ]. repeat split; try done. right; eauto.
Qed.

Lemma prelude_not_launch tr :
  forallb prelude tr = true -> forallb (fun e => negb (is_launch e)) tr = true.
Proof.
  induction tr as [|e t IH]; [done|]. simpl. intros P.
  apply andb_prop in P as [Pe Pt]. rewrite (IH Pt), andb_true_r.
  unfold prelude in Pe. by destruct (is_launch e).
Qed.

Lemma bot_run_unset h st :
  HY2_BINARY st = None ->
  exists e st' tr,
    Bot.run_hysteria2 h st = (Raise e, st')
    /\ trace st' = trace st ++ tr
    /\ forallb (fun e => negb (is_launch e)) tr = true.
Proof.
  intros Hbin.
  destruct (get_public_ip_full h st) as (st1 & t1 & E1 & T1 & Q1 & P1 & V1 & F1 & B1).
  unfold Bot.run_hysteria2. unfold mbind at 1. unfold prog_bind at 1.
  rewrite E1.
  cbv [mbind prog_bind mret prog_ret fmap prog_fmap getenv_default print
       subprocess_run Bot.the_binary].
  cbn [environ emit trace fst snd HY2_BINARY]. rewrite B1, Hbin.
  eexists; eexists; eexists. split; [reflexivity | ].
  cbn [trace emit]. rewrite T1, <- !app_assoc. split; [reflexivity | ].
  rewrite forallb_app. apply andb_true_intro. split; [ | reflexivity ].
  by apply prelude_not_launch.
Qed.

Lemma good_never_exit1 {A} (r : result A) :
  good never exit1 r -> (exists a, r = Return a) \/ r = Exit 1.
Proof.
  destruct r as [a|e|c]; simpl; [eauto | done | ].
  unfold exit1. intros ->. by right.
Qed.

Lemma step_outcome (R : state -> state -> Prop) (m : prog unit) st :
  runs R never exit1 m ->
  exists r st', m st = (r, st') /\ R st st' /\ (r = Return () \/ r = Exit 1).
Proof.
  intros Hm. destruct (Hm st) as [HR Hg]. destruct (m st) as [r st'] eqn:E.
  exists r, st'. simpl in *. repeat split; [done | ].
  destruct (good_never_exit1 r Hg) as [[[] ->]| ->]; auto.
Qed.

Lemma forallb_prelude_app t1 t2 :
  forallb prelude t1 = true -> forallb prelude t2 = true ->
  forallb prelude (t1 ++ t2) = true.
Proof. intros H1 H2. by rewrite forallb_app, H1, H2. Qed.

Lemma banner_prelude h : forallb prelude (banner h) = true.
Proof. reflexivity. Qed.

Lemma startup_cases h download config run st :
  runs (rel_and same_environ (extends prelude)) never exit1 download ->
  runs quiet never exit1 config ->
  (exists st' tr,
      startup h download config run st = (Exit 1, st')
      /\ trace st' = trace st ++ tr /\ forallb prelude tr = true)
  \/
  (exists s1 s2 s3 s4 t1 t2 t3 t4,
      load_dotenv h (after_banner h st) = (Return (), s1)
      /\ trace s1 = trace st ++ banner h ++ t1
      /\ environ s1 = dotenv_environ h st
      /\ download s1 = (Return (), s2) /\ trace s2 = trace s1 ++ t2
      /\ generate_self_signed_cert h s2 = (Return (), s3)
      /\ trace s3 = trace s2 ++ t3
      /\ config s3 = (Return (), s4) /\ trace s4 = trace s3 ++ t4
      /\ environ s3 = environ s1
      /\ forallb prelude (t1 ++ t2 ++ t3 ++ t4) = true
      /\ startup h download config run st = run (emit (ESleep 2) s4)).
Proof.
  intros Hd Hc.
  destruct (load_dotenv_spec h (after_banner h st))
    as (s1 & E1 & V1 & F1 & B1 & (t1 & T1 & P1)).
  destruct (step_outcome _ _ s1 Hd) as (r2 & s2 & E2 & [V2 (t2 & T2 & P2)] & O2).
  assert (T0 : trace s1 = trace st ++ banner h ++ t1).
  { rewrite T1. unfold after_banner, banner. cbn [trace emit].
    by rewrite <- !app_assoc. }
  pose proof (banner_prelude h) as P0.
  unfold startup. cbv [mbind prog_bind print sleep].
  fold (after_banner h st). rewrite E1, E2.
  destruct O2 as [-> | ->].
  2:{ left. exists s2, (banner h ++ t1 ++ t2). split; [reflexivity|]. split.
      - rewrite T2, T0. by rewrite <- !app_assoc.
      - by repeat apply forallb_prelude_app. }
  destruct (step_outcome _ _ s2 (generate_self_signed_cert_runs h))
    as (r3 & s3 & E3 & (V3 & B3 & (t3 & T3 & P3)) & O3).
  rewrite E3.
  destruct O3 as [-> | ->].
  2:{ left. exists s3, (banner h ++ t1 ++ t2 ++ t3). split; [reflexivity|]. split.
      - rewrite T3, T2, T0. by rewrite <- !app_assoc.
      - by repeat apply forallb_prelude_app. }
  destruct (step_outcome _ _ s3 Hc)
    as (r4 & s4 & E4 & (V4 & B4 & (t4 & T4 & P4)) & O4).
  rewrite E4.
  destruct O4 as [-> | ->].
  2:{ left. exists s4, (banner h ++ t1 ++ t2 ++ t3 ++ t4). split; [reflexivity|]. split.
      - rewrite T4, T3, T2, T0. by rewrite <- !app_assoc.
      - by repeat apply forallb_prelude_app. }
  right. exists s1, s2, s3, s4, t1, t2, t3, t4.
  split; [reflexivity|]. split; [exact T0|]. split; [exact V1|].
  split; [exact E2|]. split; [exact T2|]. split; [exact E3|].
  split; [exact T3|]. split; [exact E4|]. split; [exact T4|].
  split; [unfold same_environ in *; congruence|].
  split; [by repeat apply forallb_prelude_app|].
  destruct (run (emit (ESleep 2) s4)) as [[[]|e|c] s5]; reflexivity.
Qed.

Lemma main_of_startup v h :
  main_of v h
  = startup h (download_of v h) (generate_config_of v h) (run_of v h).
Proof.
  destruct v;
    cbv [main_of download_of generate_config_of run_of startup App.main Bot.main];
    reflexivity.
Qed.

Lemma download_of_runs v h :
  runs (rel_and same_environ (extends prelude)) never exit1 (download_of v h).
Proof.
  destruct v; unfold download_of; [ | apply bot_download_runs ].
  intros st. destruct (app_download_runs h st) as [(V & B & T) G].
  split; [split; [exact V | exact T] | exact G].
Qed.

Lemma generate_config_of_runs v h :
  runs quiet never exit1 (generate_config_of v h).
Proof.
  destruct v; unfold generate_config_of, App.generate_config, Bot.generate_config;
    apply generate_config_with_runs.
Qed.

Lemma generate_config_of_with v h :
  exists render, generate_config_of v h = generate_config_with h render.
Proof.
  destruct v; unfold generate_config_of, App.generate_config, Bot.generate_config;
    [ exists (App.config_content h) | exists (Bot.config_content h) ]; reflexivity.
Qed.


Lemma prelude_no_launch tr : forallb prelude tr = true -> no_launch tr.
Proof. apply prelude_not_launch. Qed.

Lemma load_dotenv_environ h st :
  environ (load_dotenv h st).2 = dotenv_environ h st.
Proof.
  destruct (load_dotenv_spec h st) as (s1 & E1 & V1 & _). by rewrite E1.
Qed.

Lemma generate_config_of_no_password v h s :
  nonempty (default [] (environ s !! py "HY2_PASSWORD")) = false ->
  exists s', generate_config_of v h s = (Exit 1, s') /\ fs s' = fs s.
Proof.
  intros Hpw. destruct (generate_config_of_with v h) as [render ->].
  by apply generate_config_with_no_password.
Qed.

Lemma generate_config_of_bad_port v h s :
  py_int h (default (py "7102") (environ s !! py "HY2_PORT")) = None ->
  exists s', generate_config_of v h s = (Exit 1, s') /\ fs s' = fs s.
Proof.
  intros Hport. destruct (generate_config_of_with v h) as [render ->].
  by apply generate_config_with_bad_port.
Qed.



Lemma launch_is_last e l x :
  In e (l ++ [x]) -> is_launch e = true -> no_launch l -> e = x.
Proof.
  intros Hin He Hl. apply in_app_or in Hin as [Hin | [-> | []]]; [ | done ].
  unfold no_launch in Hl. rewrite forallb_forall in Hl.
  specialize (Hl e Hin). by rewrite He in Hl.
Qed.

Lemma no_launch_in tr e : no_launch tr -> In e tr -> is_launch e = true -> False.
Proof.
  unfold no_launch. rewrite forallb_forall. intros Hl Hin He.
  specialize (Hl e Hin). by rewrite He in Hl.
Qed.

Lemma prelude_calm tr : forallb prelude tr = true -> forallb calm tr = true.
Proof.
  induction tr as [|e t IH]; [done|]. simpl. intros P.
  apply andb_prop in P as [Pe Pt]. rewrite (IH Pt), andb_true_r.
  unfold prelude in Pe. unfold calm.
  by destruct (is_launch e), (is_sleep e).
Qed.

Lemma prelude_no_link tr :
  forallb prelude tr = true -> List.filter is_link_line tr = [].
Proof.
  induction tr as [|e t IH]; [done|]. simpl. intros P.
  apply andb_prop in P as [Pe Pt]. rewrite (IH Pt).
  unfold prelude in Pe. by destruct (is_link_line e), (is_launch e), (is_sleep e).
Qed.

Lemma prints_calm tr : forallb is_print tr = true -> forallb calm tr = true.
Proof.
  induction tr as [|e t IH]; [done|]. simpl. intros P.
  apply andb_prop in P as [Pe Pt]. rewrite (IH Pt), andb_true_r.
  by destruct e.
Qed.

Lemma calm_no_launch tr : forallb calm tr = true -> no_launch tr.
Proof.
  unfold no_launch. induction tr as [|e t IH]; [done|]. simpl. intros P.
  apply andb_prop in P as [Pe Pt]. rewrite (IH Pt), andb_true_r.
  unfold calm in Pe. by destruct (is_launch e).
Qed.

Lemma the_info_prints h st line :
  forallb is_print (the_info h st []) = true
  /\ forallb is_print (the_info h st [EPrint line]) = true.
Proof. unfold the_info. split; reflexivity. Qed.

(** What [run_hysteria2] does, in either script, once the binary is known. *)
Lemma run_of_spec v h st :
  (exists r st' t5 binary,
      run_of v h st = (r, st')
      /\ trace st' = trace st ++ t5 ++ [launch_event binary h]
      /\ forallb calm t5 = true
      /\ List.filter is_link_line t5 = [link_line (the_url h st)]
      /\ match v with
         | Plain => binary = App.HY2_BINARY h
         | Obfuscated => HY2_BINARY st = Some binary
         end)
  \/ (exists e st' tr,
        run_of v h st = (Raise e, st') /\ trace st' = trace st ++ tr
        /\ no_launch tr /\ v = Obfuscated /\ HY2_BINARY st = None).
Proof.
  destruct v; unfold run_of.
  - left. destruct (app_run_spec h st) as (r & st' & probes & E & T & Q & P & V & O).
    exists r, st', (probes ++ the_info h st []), (App.HY2_BINARY h).
    split; [exact E|]. split; [by rewrite T, <- !app_assoc|].
    split.
    { rewrite forallb_app, (prelude_calm _ P). apply prints_calm.
      apply (the_info_prints h st []). }
    split; [ | reflexivity ].
    rewrite List.filter_app, (prelude_no_link _ P). apply info_lines_link.
  - destruct (HY2_BINARY st) as [binary|] eqn:B.
    + left. destruct (bot_run_spec h st binary B)
        as (r & st' & probes & E & T & Q & P & V & O).
      exists r, st',
        (probes ++ the_info h st [EPrint (py "当前二进制文件: " ++ path_name binary)]),
        binary.
      split; [exact E|]. split; [by rewrite T, <- !app_assoc|].
      split.
      { rewrite forallb_app, (prelude_calm _ P). apply prints_calm.
        apply (the_info_prints h st). }
      split; [ | reflexivity ].
      rewrite List.filter_app, (prelude_no_link _ P). apply info_lines_link_bot.
    + right. destruct (bot_run_unset h st B) as (e & st' & tr & E & T & P).
      exists e, st', tr. by repeat split.
Qed.

(** C7. In a run that starts the server, the steps of [main] happened in
    the order load .env, binary, certificate, config, sleep, connection
    info, server: each step ran to completion from the state its
    predecessor left, what the run did is the concatenation of what the
    steps did, the sleep separates the config from the connection info, and
    the start of the server is the last thing the script does. *)
Theorem main_steps_in_order (v : script) (h : host) (st : state)
    (tr : list event) (e : event) :
  trace (main_of v h st).2 = trace st ++ tr ->
  In e tr -> is_launch e = true ->
  exists s1 s2 s3 s4 t1 t2 t3 t4 t5 binary,
    load_dotenv h (after_banner h st) = (Return (), s1)
    /\ trace s1 = trace st ++ banner h ++ t1
    /\ download_of v h s1 = (Return (), s2) /\ trace s2 = trace s1 ++ t2
    /\ generate_self_signed_cert h s2 = (Return (), s3)
    /\ trace s3 = trace s2 ++ t3
    /\ generate_config_of v h s3 = (Return (), s4) /\ trace s4 = trace s3 ++ t4
    /\ trace (run_of v h (emit (ESleep 2) s4)).2
       = trace s4 ++ [ESleep 2] ++ t5 ++ [e]
    /\ tr = banner h ++ t1 ++ t2 ++ t3 ++ t4 ++ [ESleep 2] ++ t5 ++ [e]
    /\ e = launch_event binary h
    /\ forallb prelude (banner h ++ t1 ++ t2 ++ t3 ++ t4) = true
    /\ forallb calm t5 = true
    /\ List.filter is_link_line t5 = [link_line (the_url h s4)].
Proof.
  intros Htr Hin He. rewrite main_of_startup in Htr.
  destruct (startup_cases h (download_of v h) (generate_config_of v h)
              (run_of v h) st (download_of_runs v h) (generate_config_of_runs v h))
    as [(st' & tr' & E & T & P) | Hright].
  { rewrite E in Htr. cbn [snd] in Htr. rewrite T in Htr.
    apply app_inv_head in Htr. subst tr'.
    destruct (no_launch_in tr e (prelude_no_launch _ P) Hin He). }
  destruct Hright as (s1 & s2 & s3 & s4 & t1 & t2 & t3 & t4 & E1 & T1 & V1 & E2
                      & T2 & E3 & T3 & E4 & T4 & V3 & P & Erun).
  rewrite Erun in Htr.
  assert (T4' : trace s4 = trace st ++ banner h ++ t1 ++ t2 ++ t3 ++ t4).
  { rewrite T4, T3, T2, T1. by rewrite <- !app_assoc. }
  assert (P0 : forallb prelude (banner h ++ t1 ++ t2 ++ t3 ++ t4) = true).
  { apply forallb_prelude_app; [apply banner_prelude | exact P]. }
  destruct (run_of_spec v h (emit (ESleep 2) s4))
    as [(r & st' & t5 & binary & E & T & C & L & _)
       | (x & st' & tr' & E & T & N & _)].
  - rewrite E in Htr. cbn [snd] in Htr. rewrite T in Htr.
    cbn [trace emit] in Htr, T. rewrite T4', <- !app_assoc in Htr.
    apply app_inv_head in Htr. subst tr.
    assert (Hl : no_launch ((banner h ++ t1 ++ t2 ++ t3 ++ t4) ++ [ESleep 2] ++ t5)).
    { unfold no_launch. rewrite forallb_app.
      rewrite (prelude_no_launch _ P0).
      change (forallb (fun e => negb (is_launch e)) ([ESleep 2] ++ t5))
        with (forallb (fun e => negb (is_launch e)) t5).
      by rewrite (calm_no_launch _ C). }
    assert (e = launch_event binary h) as ->.
    { apply (launch_is_last e _ _) with (3 := Hl); [ | exact He ].
      by rewrite <- !app_assoc. }
    exists s1, s2, s3, s4, t1, t2, t3, t4, t5, binary.
    rewrite E. cbn [snd].
    split; [exact E1|]. split; [exact T1|]. split; [exact E2|].
    split; [exact T2|]. split; [exact E3|]. split; [exact T3|].
    split; [exact E4|]. split; [exact T4|].
    split; [by rewrite T, <- !app_assoc|].
    repeat split; try done.
  - rewrite E in Htr. cbn [snd] in Htr. rewrite T in Htr.
    cbn [trace emit] in Htr. rewrite T4', <- !app_assoc in Htr.
    apply app_inv_head in Htr. subst tr.
    exfalso.
    assert (Hl : no_launch ((banner h ++ t1 ++ t2 ++ t3 ++ t4) ++ [ESleep 2] ++ tr')).
    { unfold no_launch. rewrite forallb_app.
      rewrite (prelude_no_launch _ P0).
      change (forallb (fun e => negb (is_launch e)) ([ESleep 2] ++ tr'))
        with (forallb (fun e => negb (is_launch e)) tr').
      by rewrite N. }
    apply (no_launch_in _ e Hl); [ | exact He ].
    by rewrite <- !app_assoc.
Qed.

Lemma join_cons (sep x : list N) (r : list (list N)) :
  r <> [] -> join sep (x :: r) = x ++ sep ++ join sep r.
Proof. by destruct r. Qed.

Lemma join_snoc (l : list (list N)) (name : list N) :
  join [SLASH] (l ++ [name]) = concat (map (fun c => c ++ [SLASH]) l) ++ name.
Proof.
  induction l as [|x l IH]; [done|].
  cbn [app map concat]. rewrite join_cons by (by destruct l).
  by rewrite IH, <- !app_assoc.
Qed.

Lemma path_str_child d name :
  plain_name name -> path_str (truediv d name) = dir_prefix d ++ name.
Proof.
  unfold plain_name, truediv, dir_prefix. intros ->. cbn [anchor parts].
  unfold path_str. cbn [anchor parts]. rewrite <- app_assoc, <- join_snoc.
  destruct (anchor d); [ | reflexivity ].
  destruct (parts d ++ [name]) eqn:E; [ | reflexivity ].
  by destruct (parts d).
Qed.

Lemma path_str_child_ne d n1 n2 :
  plain_name n1 -> plain_name n2 -> n1 <> n2 ->
  path_str (truediv d n1) <> path_str (truediv d n2).
Proof.
  intros H1 H2 Hne. rewrite !path_str_child by done.
  intros E. by apply app_inv_head in E.
Qed.


Ltac fetch_tac :=
  cbn beta iota;
  match goal with
  | |- context [urlretrieve_outcome ?h ?url] =>
    destruct (urlretrieve_outcome h url) as [body | msg [part|]]
  end;
  cbn beta iota; cbn [fs set_fs emit set_binary]; unfold store;
  [ rewrite lookup_insert_eq; cbn beta iota; cbn [fs set_fs emit set_binary content];
    rewrite lookup_insert_eq; cbn beta iota; cbn [fs set_fs emit set_binary];
    eexists; eexists; (split; [reflexivity | ]);
    cbn [fs set_fs emit set_binary HY2_BINARY];
    rewrite !delete_insert_eq; by repeat split
  | rewrite lookup_insert_eq;
    rewrite bool_decide_eq_true_2 by eauto; cbn beta iota;
    cbn [fs set_fs emit set_binary]; rewrite lookup_insert_eq;
    eexists; eexists; (split; [reflexivity | ]);
    cbn [fs set_fs emit set_binary];
    rewrite delete_insert_eq; by repeat split
  | match goal with
    | |- context [fs ?st !! ?temp] =>
      let E := fresh "Etemp" in
      destruct (fs st !! temp) eqn:E;
      [ rewrite bool_decide_eq_true_2 by eauto; cbn beta iota;
        cbn [fs set_fs emit set_binary]; rewrite E;
        eexists; eexists; (split; [reflexivity | ]); by repeat split
      | rewrite bool_decide_eq_false_2 by (intros [? ?]; congruence);
        cbn beta iota;
        eexists; eexists; (split; [reflexivity | ]);
        cbn [fs set_fs emit set_binary];
        rewrite delete_id by done; by repeat split ]
    end ].

Lemma bot_download_cases h st :
  let random_name := random_choices h Bot.alphabet 16 in
  let target := truediv (WORK_DIR h) random_name in
  exists r st',
    Bot.download_hysteria2 h st = (r, st')
    /\ match recorded_binary h st with
       | Some candidate =>
         r = Return () /\ fs st' = fs st /\ HY2_BINARY st' = Some candidate
       | None =>
         match urlretrieve_outcome h (download_url st) with
         | Retrieved body =>
           r = Return ()
           /\ HY2_BINARY st' = Some target
           /\ fs st' = store (path_str (Bot.BINARY_RECORD h)) random_name
                         (<[path_str target := {| content := body; mode := 493 |}]>
                            (delete (path_str (temp_binary h)) (fs st)))
         | RetrieveFailed msg partial =>
           r = Exit 1 /\ fs st' = delete (path_str (temp_binary h)) (fs st)
         end
       end.
Proof.
  intros random_name target.
  unfold Bot.download_hysteria2, recorded_binary, download_url, temp_binary.
  cbv [mbind prog_bind mret prog_ret fmap prog_fmap getenv_default exists_
       read_text access_x Bot.assign_HY2_BINARY print try_except urlretrieve
       chmod rename write_text unlink when_ sys_exit].
  cbn [fs emit set_fs set_binary environ trace HY2_BINARY fst snd].
  set (temp := path_str (truediv (WORK_DIR h) (py "temp-binary"))).
  set (url := py "https://github.com/apernet/hysteria/releases/latest/download/" ++ _).
  set (record := path_str (Bot.BINARY_RECORD h)).
  destruct (fs st !! record) as [f|] eqn:Erec.
  - rewrite bool_decide_eq_true_2 by eauto. cbn beta iota. rewrite Erec. cbn beta iota.
    destruct (fs st !! path_str (truediv (WORK_DIR h) (strip (content f))))
      as [b|] eqn:Ecand.
    + rewrite bool_decide_eq_true_2 by eauto. cbn [andb].
      destruct (executable b).
      * eexists; eexists. split; [reflexivity | ]. cbn [fs emit set_binary HY2_BINARY].
        by repeat split.
      * fetch_tac.
    + rewrite bool_decide_eq_false_2 by (intros [? ?]; congruence). cbn [andb].
      fetch_tac.
  - rewrite bool_decide_eq_false_2 by (intros [? ?]; congruence).
    fetch_tac.
Qed.





Lemma config_content_lines v h port password url :
  match v with
  | Plain => App.config_content h port password url
  | Obfuscated => Bot.config_content h port password url
  end = join NL (config_lines v h port password url) ++ NL.
Proof.
  destruct v; unfold App.config_content, Bot.config_content, config_lines;
    cbn [app join]; rewrite <- ?app_assoc; reflexivity.
Qed.




(** C2, as stated, fails: with no HY2_NODE_NAME configured the printed link
    still ends in a "#" suffix, the default name. *)
Lemma unnamed_node_gets_default_suffix :
  let st := boot [(py "HY2_PASSWORD", py "secret")] installed in
  environ st !! py "HY2_NODE_NAME" = None
  /\ links (trace (App.run_hysteria2 demo_host st).2)
     = [ link_line (py "hysteria2://secret@203.0.113.7:7102/?sni=bing.com&insecure=1#Hysteria2 Node") ].
Proof. cbv zeta. split; vm_compute; reflexivity. Qed.

(** C2, amended. [run_hysteria2] prints one connection link:
    hysteria2://password@ip:port/?sni=domain&insecure=1, followed by "#" and
    the node name exactly when the stripped node name is not empty, where
    the node name is HY2_NODE_NAME or, when that is unset, "Hysteria2 Node";
    so the suffix is missing only when HY2_NODE_NAME is set to a blank
    value. *)
Theorem connection_link_printed (v : script) (h : host) (st : state)
    (binary : Path) :
  match v with Plain => True | Obfuscated => HY2_BINARY st = Some binary end ->
  let ip := default (py "你的服务器IP") (first_answer h ip_sources) in
  let name := strip (default (py "Hysteria2 Node")
                       (environ st !! py "HY2_NODE_NAME")) in
  let base := py "hysteria2://"
              ++ default (py "[未设置]") (environ st !! py "HY2_PASSWORD")
              ++ py "@" ++ ip
              ++ py ":" ++ default (py "7102") (environ st !! py "HY2_PORT")
              ++ py "/?sni="
              ++ default (py "bing.com") (environ st !! py "FAKE_DOMAIN")
              ++ py "&insecure=1" in
  exists tr,
    trace (run_of v h st).2 = trace st ++ tr
    /\ links tr = [ link_line (if nonempty name then base ++ py "#" ++ name
                               else base) ].
Proof.
  intros Hbin ip name base.
  destruct (run_of_spec v h st)
    as [(r & st' & t5 & b & E & T & C & L & _)
       | (x & st' & tr' & E & T & N & -> & Hnone)].
  - exists (t5 ++ [launch_event b h]). rewrite E. split; [exact T | ].
    unfold links. rewrite List.filter_app, L.
    unfold the_url, client_url, base_url, getd. reflexivity.
  - rewrite Hnone in Hbin. discriminate.
Qed.

Lemma connection_link_printed_witness :
  exists tr,
    trace (run_of Obfuscated demo_host blank_name_state).2
    = trace blank_name_state ++ tr
    /\ links tr
       = [ link_line (py "hysteria2://secret@203.0.113.7:7102/?sni=bing.com&insecure=1") ].
Proof.
  destruct (connection_link_printed Obfuscated demo_host blank_name_state
              (truediv (WORK_DIR demo_host) (py "k3v9x0q2m7c1z8a4")) eq_refl)
    as (tr & T & L).
  exists tr. split; [exact T | ]. refine (eq_trans L _). vm_compute. reflexivity.
Defined.

(** C5, as stated, fails in its last part: a failure while loading .env is
    survived as well.  Here a line without "=" makes the loading fail, and
    the script goes on to start the server. *)
Lemma dotenv_failure_is_survived :
  let st := boot [(py "HY2_PASSWORD", py "secret")] (with_dotenv (py "FOO")) in
  (App.main demo_host st).1 = Return ()
  /\ In (EPrint (py ".env 加载失败: not enough values to unpack (expected 2, got 1)"))
        (trace (App.main demo_host st).2)
  /\ existsb is_launch (trace (App.main demo_host st).2) = true.
Proof.
  cbv zeta. split; [ | split ].
  - vm_compute. reflexivity.
  - vm_compute. do 3 right. left. reflexivity.
  - vm_compute. reflexivity.
Qed.

(** C5, amended. [get_public_ip] asks the five services in their fixed
    order, stops at the first one whose stripped answer is not empty and
    returns that stripped answer; when every service fails or answers with
    blanks only, it returns the placeholder.  It never ends the script, and
    neither does [load_dotenv]. *)
Theorem public_ip_falls_back (h : host) (st : state) :
  let sources := [ py "https://api.ipify.org"; py "https://ifconfig.me";
                   py "https://icanhazip.com"; py "https://ipinfo.io/ip";
                   py "http://checkip.amazonaws.com" ] in
  (exists st' tr,
      get_public_ip h st
      = (Return (default (py "你的服务器IP") (first_answer h sources)), st')
      /\ trace st' = trace st ++ tr
      /\ requested tr = tried h sources
      /\ environ st' = environ st /\ fs st' = fs st)
  /\ (exists st', load_dotenv h st = (Return (), st')).
Proof.
  intros sources. split.
  - destruct (get_public_ip_spec h st) as (st' & tr & E & T & Q & V & F & _).
    exists st', tr. by repeat split.
  - destruct (load_dotenv_spec h st) as (st' & E & _). by exists st'.
Qed.

Lemma foldl_assign_lookup (env : gmap (list N) (list N)) lines key :
  foldl assign env lines !! key
  = match last_assigned key lines with
    | Some v => Some v
    | None => env !! key
    end.
Proof.
  unfold last_assigned.
  induction lines as [|line lines IH] using rev_ind; [done|].
  rewrite !foldl_app. cbn [foldl]. unfold assign at 1.
  destruct (classify line) as [|k v|e]; try exact IH.
  destruct (decide (k = key)) as [->|Hne].
  - by rewrite lookup_insert_eq.
  - by rewrite lookup_insert_ne.
Qed.

Lemma last_assigned_in key lines line value :
  In line lines -> classify line = Assigned key value ->
  exists value', last_assigned key lines = Some value'.
Proof.
  unfold last_assigned. intros Hin Hline.
  induction lines as [|l lines IH] using rev_ind; [done|].
  rewrite foldl_app. cbn [foldl].
  apply in_app_or in Hin as [Hin | [-> | []]].
  - destruct (IH Hin) as [v' ->].
    destruct (classify l) as [|k v|e]; eauto.
    destruct (decide (k = key)); eauto.
  - rewrite Hline. rewrite decide_True by done. eauto.
Qed.

Lemma load_dotenv_prefix h st f pre rest :
  fs st !! path_str (ENV_FILE h) = Some f ->
  splitlines (content f) = pre ++ rest ->
  accepted pre -> stops_at rest ->
  exists st',
    load_dotenv h st = (Return (), st')
    /\ environ st' = foldl assign (environ st) pre
    /\ fs st' = fs st.
Proof.
  intros Hf Hlines Hpre Hrest.
  destruct (load_dotenv_spec h st) as (st' & E & V & F & _).
  exists st'. split; [exact E | ]. split; [ | exact F ].
  rewrite V. unfold dotenv_environ. rewrite Hf, Hlines.
  by rewrite accepted_prefix_split.
Qed.

(** C8, as stated, fails: a line without "=" stops the loading, and the
    lines after it, however well formed, are not stored. *)
Lemma line_after_bad_line_is_not_stored :
  let text := py "FOO" ++ NL ++ py "BAR=1" ++ NL in
  let st := boot [] (with_dotenv text) in
  splitlines text = [py "FOO"; py "BAR=1"]
  /\ classify (py "BAR=1") = Assigned (py "BAR") (py "1")
  /\ environ (load_dotenv demo_host st).2 !! py "BAR" = None.
Proof. cbv zeta. repeat split; vm_compute; reflexivity. Qed.

(** C8, amended. [load_dotenv] reads the lines of .env in order up to the
    first line that it rejects (one that is neither blank nor a comment and
    has no "=", or whose name the environment refuses): of the lines before
    it, blank lines and "#" lines are skipped and every other line is split
    at its first "=" into a stripped key and a stripped value that are
    stored into the environment.  The rejected line and the lines after it
    change nothing, and the script goes on. *)
Theorem dotenv_lines_are_stored (h : host) (st : state) (f : file)
    (pre rest : list (list N)) :
  fs st !! path_str (ENV_FILE h) = Some f ->
  splitlines (content f) = pre ++ rest ->
  accepted pre -> stops_at rest ->
  exists st',
    load_dotenv h st = (Return (), st')
    /\ environ st' = foldl assign (environ st) pre
    /\ fs st' = fs st
    /\ (forall line, In line pre ->
          match classify line with
          | Skipped =>
            strip line = [] \/ startswith 35 (strip line) = true
          | Assigned key value =>
            exists k v, split1 61 (strip line) = Some (k, v)
                        /\ key = strip k /\ value = strip v
          | Rejected _ => False
          end).
Proof.
  intros Hf Hlines Hpre Hrest.
  destruct (load_dotenv_prefix h st f pre rest Hf Hlines Hpre Hrest)
    as (st' & E & V & F).
  exists st'. split; [exact E | ]. split; [exact V | ]. split; [exact F | ].
  intros line Hin. unfold accepted in Hpre. rewrite forallb_forall in Hpre.
  specialize (Hpre line Hin). unfold is_rejected in Hpre.
  unfold classify in *. cbv zeta in *.
  destruct (strip line) as [|c s] eqn:Es; [by left | ].
  cbn [nonempty andb] in *.
  destruct (startswith 35 (c :: s)) eqn:Hc; cbn [negb] in *; [by right | ].
  destruct (split1 61 (c :: s)) as [[k v]|]; [ | done ].
  destruct (has_char 0 (strip k) || has_char 0 (strip v)); [done | ].
  destruct (has_char 61 (strip k)); [done | ].
  destruct (nonempty (strip k)); [ | done ].
  by exists k, v.
Qed.

Lemma dotenv_lines_are_stored_witness :
  exists st',
    load_dotenv demo_host (boot [] (with_dotenv (py "FOO" ++ NL ++ py "BAR=1" ++ NL)))
    = (Return (), st')
    /\ environ st' = foldl assign ∅ [].
Proof.
  destruct (dotenv_lines_are_stored demo_host
              (boot [] (with_dotenv (py "FOO" ++ NL ++ py "BAR=1" ++ NL)))
              (text_file (py "FOO" ++ NL ++ py "BAR=1" ++ NL))
              [] [py "FOO"; py "BAR=1"])
    as (st' & E & V & _).
  - vm_compute; reflexivity.
  - vm_compute; reflexivity.
  - reflexivity.
  - vm_compute; reflexivity.
  - exists st'. split; [exact E | exact V].
Defined.

(** C10, as stated, fails for a key that .env defines after a line that
    stops the loading: the variable keeps the value of the environment. *)
Lemma key_after_bad_line_is_not_overwritten :
  let text := py "FOO" ++ NL ++ py "BAR=1" ++ NL in
  let st := boot [(py "BAR", py "0")] (with_dotenv text) in
  splitlines text = [py "FOO"; py "BAR=1"]
  /\ classify (py "BAR=1") = Assigned (py "BAR") (py "1")
  /\ environ (load_dotenv demo_host st).2 !! py "BAR" = Some (py "0").
Proof. cbv zeta. repeat split; vm_compute; reflexivity. Qed.

(** C10, amended. For every key that .env defines on a line read before
    the loading stops (before the first rejected line), [load_dotenv]
    leaves in the environment the value of the last such line, whatever the
    environment held for that key before. *)
Theorem dotenv_overrides_environment (h : host) (st : state) (f : file)
    (pre rest : list (list N)) (line key value : list N) :
  fs st !! path_str (ENV_FILE h) = Some f ->
  splitlines (content f) = pre ++ rest ->
  accepted pre -> stops_at rest ->
  In line pre -> classify line = Assigned key value ->
  exists st' value',
    load_dotenv h st = (Return (), st')
    /\ last_assigned key pre = Some value'
    /\ environ st' !! key = Some value'.
Proof.
  intros Hf Hlines Hpre Hrest Hin Hline.
  destruct (load_dotenv_prefix h st f pre rest Hf Hlines Hpre Hrest)
    as (st' & E & V & _).
  destruct (last_assigned_in key pre line value Hin Hline) as [value' Hlast].
  exists st', value'. split; [exact E | ]. split; [exact Hlast | ].
  by rewrite V, foldl_assign_lookup, Hlast.
Qed.

Lemma dotenv_overrides_environment_witness :
  environ bar_state !! py "BAR" = Some (py "0")
  /\ exists st',
       load_dotenv demo_host bar_state = (Return (), st')
       /\ environ st' !! py "BAR" = Some (py "2").
Proof.
  split; [vm_compute; reflexivity | ].
  destruct (dotenv_overrides_environment demo_host bar_state
              (text_file (py "BAR=1" ++ NL ++ py "BAR = 2" ++ NL))
              [py "BAR=1"; py "BAR = 2"] [] (py "BAR=1") (py "BAR") (py "1"))
    as (st' & value' & E & Hlast & Henv).
  - vm_compute; reflexivity.
  - vm_compute; reflexivity.
  - vm_compute; reflexivity.
  - exact I.
  - left; reflexivity.
  - vm_compute; reflexivity.
  - exists st'. split; [exact E | ]. rewrite Henv, <- Hlast.
    vm_compute. reflexivity.
Defined.



Lemma main_steps_in_order_witness :
  exists s4 t5,
    trace (run_of Plain demo_host (emit (ESleep 2) s4)).2
    = trace s4 ++ [ESleep 2] ++ t5 ++ [launch_event (App.HY2_BINARY demo_host) demo_host]
    /\ forallb calm t5 = true.
Proof.
  assert (H1 : trace (main_of Plain demo_host ready_state).2
               = trace ready_state ++ trace (main_of Plain demo_host ready_state).2)
    by (vm_compute; reflexivity).
  assert (H2 : In (launch_event (App.HY2_BINARY demo_host) demo_host)
                 (trace (main_of Plain demo_host ready_state).2)).
  { vm_compute. repeat (first [left; reflexivity | right]). }
  assert (H3 : is_launch (launch_event (App.HY2_BINARY demo_host) demo_host) = true)
    by (vm_compute; reflexivity).
  destruct (main_steps_in_order Plain demo_host ready_state _ _ H1 H2 H3)
    as (s1 & s2 & s3 & s4 & t1 & t2 & t3 & t4 & t5 & binary & _ & _ & _ & _ & _
        & _ & _ & _ & Hrun & _ & _ & _ & Hcalm & _).
  exists s4, t5. split; [exact Hrun | exact Hcalm].
Defined.

(** ** Further properties of the steps *)

Lemma cert_is_not_key h : path_str (CERT_FILE h) <> path_str (KEY_FILE h).
Proof.
  unfold CERT_FILE, KEY_FILE. apply path_str_child_ne; [reflexivity | reflexivity | ].
  vm_compute. discriminate.
Qed.

Ltac fin :=
  eexists; eexists; eexists; (split; [reflexivity | ]);
  cbn [trace emit set_fs environ fs]; rewrite <- ?app_assoc;
  (split; [reflexivity | ]); by repeat split.

Lemma cert_generation h st :
  fs st !! path_str (CERT_FILE h) = None \/ fs st !! path_str (KEY_FILE h) = None ->
  exists r st' last,
    generate_self_signed_cert h st = (r, st')
    /\ trace st' = trace st ++ [ EPrint (py "正在生成自签证书...");
                                 ERun (openssl_argv h st) true; EPrint last ]
    /\ environ st' = environ st
    /\ match subprocess_outcome h (openssl_argv h st) with
       | Completed writes code =>
         let files := written writes (fs st) in
         if (code =? 0)%Z then
           match files !! path_str (KEY_FILE h), files !! path_str (CERT_FILE h) with
           | Some key, Some cert =>
             r = Return ()
             /\ fs st' = <[path_str (CERT_FILE h) := {| content := content cert; mode := 420 |}]>
                           (<[path_str (KEY_FILE h) := {| content := content key; mode := 384 |}]>
                              files)
           | _, _ => r = Exit 1
           end
         else r = Exit 1 /\ fs st' = files
       | NotStarted _ => r = Exit 1 /\ fs st' = fs st
       end.
Proof.
  intros Hmissing. unfold generate_self_signed_cert, openssl_argv, written.
  cbv [mbind prog_bind mret prog_ret exists_ print try_except getenv_default
       subprocess_run chmod sys_exit].
  cbn [fs emit set_fs environ trace fst snd].
  assert (Hguard : bool_decide (is_Some (fs st !! path_str (CERT_FILE h)))
                   && bool_decide (is_Some (fs st !! path_str (KEY_FILE h))) = false).
  { destruct Hmissing as [-> | ->].
    - by rewrite bool_decide_eq_false_2 by (intros [? ?]; congruence).
    - rewrite (bool_decide_eq_false_2 (is_Some None)) by (intros [? ?]; congruence).
      apply andb_false_r. }
  rewrite Hguard. cbn beta iota.
  destruct (subprocess_outcome h _) as [writes code | msg]; cbn beta iota zeta;
    [ | fin ].
  cbn [andb]. destruct (code =? 0)%Z; cbn [negb]; cbn beta iota;
    [ | fin ].
  cbn [fs set_fs emit].
  set (files := foldl _ (fs st) writes).
  destruct (files !! path_str (KEY_FILE h)) as [key|]; cbn beta iota;
    [ | fin ].
  cbn [fs set_fs emit].
  rewrite lookup_insert_ne by (intros E; by apply (cert_is_not_key h)).
  destruct (files !! path_str (CERT_FILE h)) as [cert|]; cbn beta iota; fin.
Qed.

(** X1. When the certificate or the key is missing, [generate_self_signed_cert]
    runs openssl for the common name FAKE_DOMAIN (or bing.com); if openssl
    succeeds and both files are then there, the key ends up readable by its
    owner only (0600), the certificate world-readable (0644), and no other
    file is touched beyond what openssl wrote. *)
Theorem fresh_key_is_private (h : host) (st : state)
    (writes : list (list N * list N)) (key cert : file) :
  fs st !! path_str (CERT_FILE h) = None \/ fs st !! path_str (KEY_FILE h) = None ->
  subprocess_outcome h (openssl_argv h st) = Completed writes 0 ->
  written writes (fs st) !! path_str (KEY_FILE h) = Some key ->
  written writes (fs st) !! path_str (CERT_FILE h) = Some cert ->
  exists st',
    generate_self_signed_cert h st = (Return (), st')
    /\ In (ERun (openssl_argv h st) true) (trace st')
    /\ fs st' !! path_str (KEY_FILE h) = Some {| content := content key; mode := 384 |}
    /\ fs st' !! path_str (CERT_FILE h)
       = Some {| content := content cert; mode := 420 |}
    /\ (forall path, path <> path_str (KEY_FILE h) -> path <> path_str (CERT_FILE h) ->
          fs st' !! path = written writes (fs st) !! path).
Proof.
  intros Hmissing Hrun Hkey Hcert.
  destruct (cert_generation h st Hmissing) as (r & st' & last & E & T & V & Hcase).
  rewrite Hrun in Hcase. cbv zeta in Hcase. cbn [Z.eqb] in Hcase.
  rewrite Hkey, Hcert in Hcase. destruct Hcase as [-> Hfs].
  exists st'. split; [exact E | ]. split.
  { rewrite T. apply in_or_app. right. right. by left. }
  rewrite Hfs. split; [ | split ].
  - rewrite lookup_insert_ne by (apply cert_is_not_key). by rewrite lookup_insert_eq.
  - by rewrite lookup_insert_eq.
  - intros path H1 H2. by rewrite !lookup_insert_ne.
Qed.

(** X2. When the certificate or the key is missing and openssl cannot be
    started or returns a non-zero status, [generate_self_signed_cert] ends
    the script with status 1, without changing the permissions of any
    file. *)
Theorem openssl_failure_ends_script (h : host) (st : state) :
  fs st !! path_str (CERT_FILE h) = None \/ fs st !! path_str (KEY_FILE h) = None ->
  match subprocess_outcome h (openssl_argv h st) with
  | Completed _ code => code <> 0%Z
  | NotStarted _ => True
  end ->
  exists st',
    generate_self_signed_cert h st = (Exit 1, st')
    /\ fs st' = match subprocess_outcome h (openssl_argv h st) with
                | Completed writes _ => written writes (fs st)
                | NotStarted _ => fs st
                end.
Proof.
  intros Hmissing Hfail.
  destruct (cert_generation h st Hmissing) as (r & st' & last & E & T & V & Hcase).
  destruct (subprocess_outcome h (openssl_argv h st)) as [writes code | msg].
  - cbv zeta in Hcase. apply Z.eqb_neq in Hfail. rewrite Hfail in Hcase.
    destruct Hcase as [-> Hfs]. by exists st'.
  - destruct Hcase as [-> Hfs]. by exists st'.
Qed.

Lemma app_download_cases h st :
  exists r st',
    App.download_hysteria2 h st = (r, st')
    /\ environ st' = environ st
    /\ match fs st !! path_str (App.HY2_BINARY h) with
       | Some _ =>
         r = Return () /\ fs st' = fs st /\ exists line, trace st' = trace st ++ [EPrint line]
       | None =>
         In (EUrlretrieve (download_url st) (path_str (App.HY2_BINARY h))) (trace st')
         /\ match urlretrieve_outcome h (download_url st) with
            | Retrieved body =>
              r = Return ()
              /\ fs st' = <[path_str (App.HY2_BINARY h) :=
                             {| content := body; mode := 493 |}]> (fs st)
            | RetrieveFailed _ partial =>
              r = Exit 1
              /\ fs st' = match partial with
                         | Some part =>
                           <[path_str (App.HY2_BINARY h) :=
                               {| content := part; mode := 420 |}]> (fs st)
                         | None => fs st
                         end
            end
       end.
Proof.
  unfold App.download_hysteria2, download_url.
  cbv [mbind prog_bind mret prog_ret fmap prog_fmap getenv_default exists_
       print try_except urlretrieve chmod sys_exit].
  cbn [fs emit set_fs environ trace fst snd].
  set (bin := path_str (App.HY2_BINARY h)).
  set (url := py "https://github.com/apernet/hysteria/releases/latest/download/" ++ _).
  destruct (fs st !! bin) as [f|] eqn:Ebin.
  - rewrite bool_decide_eq_true_2 by eauto.
    eexists; eexists. split; [reflexivity | ]. cbn [trace emit environ fs].
    repeat split. eauto.
  - rewrite bool_decide_eq_false_2 by (intros [? ?]; congruence). cbn beta iota.
    destruct (urlretrieve_outcome h url) as [body | msg [part|]];
      cbn beta iota; cbn [fs set_fs emit]; unfold store; rewrite ?Ebin.
    + rewrite lookup_insert_eq. cbn beta iota. cbn [fs set_fs emit content].
      eexists; eexists. split; [reflexivity | ].
      cbn [trace emit environ fs set_fs]. rewrite insert_insert_eq.
      repeat split. apply in_or_app. left. apply in_or_app. right. by left.
    + eexists; eexists. split; [reflexivity | ].
      cbn [trace emit environ fs set_fs].
      repeat split. apply in_or_app. left. apply in_or_app. right. by left.
    + eexists; eexists. split; [reflexivity | ].
      cbn [trace emit environ fs set_fs].
      repeat split. apply in_or_app. left. apply in_or_app. right. by left.
Qed.



(** X5. When .bin_name names a file that exists and is executable, the
    obfuscating script uses it: it contacts no server, changes no file and
    only prints one line. *)
Theorem recorded_binary_is_reused (h : host) (st : state) (candidate : Path) :
  recorded_binary h st = Some candidate ->
  exists st' line,
    Bot.download_hysteria2 h st = (Return (), st')
    /\ trace st' = trace st ++ [EPrint line]
    /\ fs st' = fs st
    /\ environ st' = environ st
    /\ HY2_BINARY st' = Some candidate.
Proof.
  unfold recorded_binary, Bot.download_hysteria2.
  cbv [mbind prog_bind mret prog_ret fmap prog_fmap getenv_default exists_
       read_text access_x Bot.assign_HY2_BINARY print].
  cbn [fs emit set_fs set_binary environ trace HY2_BINARY fst snd].
  destruct (fs st !! path_str (Bot.BINARY_RECORD h)) as [f|] eqn:Erec; [ | done ].
  rewrite bool_decide_eq_true_2 by eauto. cbn beta iota. rewrite Erec.
  cbn beta iota zeta.
  destruct (fs st !! path_str (truediv (WORK_DIR h) (strip (content f))))
    as [b|] eqn:Ecand; [ | done ].
  rewrite bool_decide_eq_true_2 by eauto. cbn [andb].
  destruct (executable b); [ | done ].
  intros [= <-]. eexists; eexists. split; [reflexivity | ].
  cbn [trace emit set_binary fs environ HY2_BINARY]. by repeat split.
Qed.

Lemma alphabet_chars c :
  existsb (N.eqb c) Bot.alphabet = true ->
  isspace c = false /\ c <> 47 /\ c <> 46.
Proof.
  intros H. apply existsb_exists in H as [x [Hin Heq]].
  apply N.eqb_eq in Heq. subst x.
  change Bot.alphabet with
    [97; 98; 99; 100; 101; 102; 103; 104; 105; 106; 107; 108; 109; 110; 111;
     112; 113; 114; 115; 116; 117; 118; 119; 120; 121; 122; 48; 49; 50; 51; 52;
     53; 54; 55; 56; 57] in Hin.
  cbn [In] in Hin.
  repeat (destruct Hin as [<- | Hin]; [by repeat split | ]). done.
Qed.

Lemma lstrip_id s : forallb (fun c => negb (isspace c)) s = true -> lstrip s = s.
Proof.
  destruct s as [|c r]; [done|]. cbn [forallb lstrip]. intros H.
  apply andb_prop in H as [Hc _]. by destruct (isspace c).
Qed.

Lemma strip_id s : forallb (fun c => negb (isspace c)) s = true -> strip s = s.
Proof.
  intros H. unfold strip, rstrip. rewrite (lstrip_id s H).
  rewrite lstrip_id; [apply rev_involutive | ].
  rewrite forallb_forall in *. intros c Hc. apply H. by apply in_rev.
Qed.

Lemma split_from_none sep cur s :
  forallb (fun c => negb (c =? sep)) s = true ->
  split_from sep cur s = [rev cur ++ s].
Proof.
  revert cur. induction s as [|c r IH]; intros cur H.
  - cbn [split_from]. by rewrite app_nil_r.
  - cbn [forallb] in H. apply andb_prop in H as [Hc Hr].
    cbn [split_from]. destruct (c =? sep); [done|].
    rewrite IH by done. cbn [rev]. by rewrite <- app_assoc.
Qed.

Lemma random_name_plain name :
  random_name_ok name ->
  plain_name name /\ strip name = name /\ name <> py ".bin_name".
Proof.
  intros [Hlen Hall]. rewrite forallb_forall in Hall.
  assert (Hc : forall c, In c name -> isspace c = false /\ c <> 47 /\ c <> 46).
  { intros c Hin. apply alphabet_chars. by apply Hall. }
  split; [ | split ].
  - unfold plain_name, path_of, split.
    rewrite split_from_none.
    2:{ rewrite forallb_forall. intros c Hin. destruct (Hc c Hin) as (_ & H47 & _).
        apply N.eqb_neq in H47. unfold SLASH. by rewrite H47. }
    cbn [rev app].
    destruct name as [|c r]; [done|].
    destruct (Hc c (or_introl eq_refl)) as (_ & H47 & H46).
    assert (Hanchor : anchor_of (c :: r) = []).
    { unfold anchor_of. destruct c as [|p]; [done|].
      repeat (destruct p as [p|p|]; try done). }
    rewrite Hanchor. f_equal.
    rewrite filter_cons_True; [done | ].
    destruct r as [|c' r']; [ | by destruct c as [|p]; repeat (destruct p as [p|p|]; try done) ].
    cbn [is_component]. destruct c as [|p]; [done|].
    repeat (destruct p as [p|p|]; try done).
  - apply strip_id. rewrite forallb_forall. intros c Hin.
    destruct (Hc c Hin) as (-> & _). done.
  - intros ->. destruct (Hc 46) as (_ & _ & H46); [ | done ].
    vm_compute. by left.
Qed.



Lemma probe_trace h source st :
  exists st',
    probe h source st = (Return (answer h source), st')
    /\ ((answer h source = None /\ trace st' = trace st ++ [EUrlopen source 5])
        \/ (exists ip line, answer h source = Some ip /\ nonempty ip = true
              /\ trace st' = trace st ++ [EUrlopen source 5; EPrint line])).
Proof.
  unfold probe, answer.
  cbv [try_except urlopen_read mbind prog_bind mret prog_ret print].
  destruct (urlopen_body h source) as [body|msg]; cbv zeta.
  - destruct (nonempty (strip body)) eqn:Hne; eexists;
      (split; [reflexivity | ]); cbn [trace emit].
    + right. eexists; eexists. split; [reflexivity | ]. split; [exact Hne | ].
      rewrite <- app_assoc. reflexivity.
    + left. by split.
  - eexists. split; [reflexivity | ]. left. by split.
Qed.

Lemma probes_trace h sources st :
  exists st',
    for_return sources (probe h) st = (Return (first_answer h sources), st')
    /\ ((first_answer h sources = None
         /\ trace st' = trace st ++ map (fun u => EUrlopen u 5) (tried h sources))
        \/ (exists ip line, first_answer h sources = Some ip /\ nonempty ip = true
              /\ trace st' = trace st ++ map (fun u => EUrlopen u 5) (tried h sources)
                             ++ [EPrint line])).
Proof.
  revert st. induction sources as [|s r IH]; intros st.
  - exists st. split; [reflexivity | ]. left. cbn [tried map]. by rewrite app_nil_r.
  - destruct (probe_trace h s st) as (st1 & E1 & H1).
    cbn [for_return first_answer tried]. unfold mbind, prog_bind. rewrite E1.
    destruct H1 as [[Hnone T1] | (ip & line & Hsome & Hne & T1)].
    + rewrite Hnone. destruct (IH st1) as (st2 & E2 & H2).
      exists st2. split; [exact E2 | ]. cbn [map].
      destruct H2 as [[Hn T2] | (ip & line & Hs & Hne & T2)].
      * left. split; [exact Hn | ]. rewrite T2, T1, <- app_assoc. reflexivity.
      * right. exists ip, line. split; [exact Hs | ]. split; [exact Hne | ].
        rewrite T2, T1, <- app_assoc. reflexivity.
    + rewrite Hsome. exists st1. split; [reflexivity | ]. right.
      exists ip, line. split; [reflexivity | ]. split; [exact Hne | ].
      rewrite T1. reflexivity.
Qed.

Lemma tried_length h sources : (length (tried h sources) <= length sources)%nat.
Proof.
  induction sources as [|s r IH]; [done|]. cbn [tried length].
  destruct (answer h s); cbn [length]; lia.
Qed.

(** X7. [get_public_ip] always returns, and what it returns is never the
    empty string.  It sends at most five requests, each with a timeout of
    five seconds, and then prints exactly one line: the address it found or
    the warning that none was found. *)
Theorem public_ip_is_never_empty (h : host) (st : state) :
  exists ip st' line,
    get_public_ip h st = (Return ip, st')
    /\ nonempty ip = true
    /\ trace st' = trace st ++ map (fun u => EUrlopen u 5) (tried h (ip_sources))
                   ++ [EPrint line]
    /\ (length (tried h ip_sources) <= 5)%nat.
Proof.
  destruct (probes_trace h ip_sources st) as (st1 & E1 & H1).
  unfold get_public_ip.
  change (for_return ip_sources _) with (for_return ip_sources (probe h)).
  unfold mbind at 1. unfold prog_bind at 1. rewrite E1.
  destruct H1 as [[Hnone T1] | (ip & line & Hsome & Hne & T1)].
  - rewrite Hnone. cbv [mbind prog_bind print mret prog_ret].
    eexists; eexists; eexists. split; [reflexivity | ].
    split; [ vm_compute; reflexivity | ].
    cbn [trace emit]. rewrite T1, <- app_assoc.
    split; [reflexivity | apply (tried_length h ip_sources)].
  - rewrite Hsome. exists ip, st1, line. split; [reflexivity | ].
    split; [exact Hne | ]. split; [exact T1 | apply (tried_length h ip_sources)].
Qed.

Lemma foldl_assign_twice (env : gmap (list N) (list N)) lines :
  foldl assign (foldl assign env lines) lines = foldl assign env lines.
Proof.
  apply map_eq. intros key. rewrite !foldl_assign_lookup.
  by destruct (last_assigned key lines).
Qed.

(** X8. Loading the .env file a second time changes nothing: the
    environment after two loads is the environment after one. *)
Theorem load_dotenv_twice (h : host) (st : state) :
  environ (load_dotenv h (load_dotenv h st).2).2 = environ (load_dotenv h st).2
  /\ fs (load_dotenv h (load_dotenv h st).2).2 = fs st.
Proof.
  destruct (load_dotenv_spec h st) as (st1 & E1 & V1 & F1 & _).
  rewrite E1. cbn [snd].
  destruct (load_dotenv_spec h st1) as (st2 & E2 & V2 & F2 & _).
  rewrite E2. cbn [snd]. split; [ | congruence ].
  rewrite V2. unfold dotenv_environ at 1. rewrite F1, V1. unfold dotenv_environ.
  destruct (fs st !! path_str (ENV_FILE h)) as [f|]; [ | reflexivity ].
  apply foldl_assign_twice.
Qed.

Lemma accepted_prefix_in line lines :
  In line (accepted_prefix lines) -> In line lines.
Proof.
  induction lines as [|l r IH]; [done|]. cbn [accepted_prefix].
  destruct (is_rejected l); [done|]. intros [->|Hin]; [by left | right; auto].
Qed.

Lemma last_assigned_none key lines :
  (forall line value, In line lines -> classify line <> Assigned key value) ->
  last_assigned key lines = None.
Proof.
  unfold last_assigned. induction lines as [|l lines IH] using rev_ind; [done|].
  intros H. rewrite foldl_app. cbn [foldl].
  rewrite IH by (intros line value Hin; apply H, in_or_app; by left).
  destruct (classify l) as [|k v|e] eqn:Hl; try done.
  destruct (decide (k = key)) as [->|]; [ | done ].
  exfalso. apply (H l v); [ apply in_or_app; right; by left | exact Hl ].
Qed.

Lemma classify_assigned line key value :
  classify line = Assigned key value ->
  exists k v, split1 61 (strip line) = Some (k, v) /\ strip k = key.
Proof.
  unfold classify. cbv zeta.
  destruct (nonempty (strip line) && negb (startswith 35 (strip line))); [ | done ].
  destruct (split1 61 (strip line)) as [[k v]|]; [ | done ].
  destruct (has_char 0 (strip k) || has_char 0 (strip v)); [ done | ].
  destruct (has_char 61 (strip k)); [ done | ].
  destruct (nonempty (strip k)); [ | done ].
  intros [= <- <-]. by exists k, v.
Qed.

(** X9. [load_dotenv] changes only the variables that the .env file names:
    a variable that no line of the file has before its first "=" keeps the
    value it had (or stays unset), and without a .env file nothing
    changes. *)
Theorem load_dotenv_keeps_other_keys (h : host) (st : state) (key : list N) :
  (forall f line k v,
      fs st !! path_str (ENV_FILE h) = Some f ->
      In line (splitlines (content f)) ->
      split1 61 (strip line) = Some (k, v) -> strip k <> key) ->
  environ (load_dotenv h st).2 !! key = environ st !! key.
Proof.
  intros Hother.
  destruct (load_dotenv_spec h st) as (st1 & E1 & V1 & _).
  rewrite E1. cbn [snd]. rewrite V1. unfold dotenv_environ.
  destruct (fs st !! path_str (ENV_FILE h)) as [f|] eqn:Hf; [ | reflexivity ].
  rewrite foldl_assign_lookup, last_assigned_none; [reflexivity | ].
  intros line value Hin Hline.
  destruct (classify_assigned line key value Hline) as (k & v & Hsplit & Hk).
  apply (Hother f line k v eq_refl (accepted_prefix_in _ _ Hin) Hsplit Hk).
Qed.

(** Stripping, piece by piece. *)
Lemma lstrip_app_nonspace a c b :
  isspace c = false -> lstrip (a ++ c :: b) = lstrip a ++ c :: b.
Proof.
  intros Hc. induction a as [|x a IH].
  - cbn [app lstrip]. by rewrite Hc.
  - cbn [app lstrip]. by destruct (isspace x).
Qed.

Lemma rstrip_app_nonspace a c b :
  isspace c = false -> rstrip (a ++ c :: b) = a ++ c :: rstrip b.
Proof.
  intros Hc. unfold rstrip. rewrite rev_app_distr. cbn [rev].
  rewrite <- app_assoc. cbn [app]. rewrite lstrip_app_nonspace by done.
  rewrite rev_app_distr. cbn [rev]. by rewrite rev_involutive, <- app_assoc.
Qed.

Lemma rstrip_cons_nonspace c r :
  isspace c = false -> rstrip (c :: r) = c :: rstrip r.
Proof. intros Hc. exact (rstrip_app_nonspace [] c r Hc). Qed.

Lemma lstrip_head s :
  lstrip s = [] \/ exists c r, lstrip s = c :: r /\ isspace c = false.
Proof.
  induction s as [|x s IH]; [by left|]. cbn [lstrip].
  destruct (isspace x) eqn:Hx; [exact IH | right; eauto].
Qed.

Lemma lstrip_lstrip s : lstrip (lstrip s) = lstrip s.
Proof.
  destruct (lstrip_head s) as [-> | (c & r & -> & Hc)]; [done|].
  cbn [lstrip]. by rewrite Hc.
Qed.

Lemma rstrip_rstrip s : rstrip (rstrip s) = rstrip s.
Proof. unfold rstrip. by rewrite rev_involutive, lstrip_lstrip. Qed.

Lemma lstrip_app_space a c :
  isspace c = true ->
  lstrip (a ++ [c]) = match lstrip a with [] => [] | l => l ++ [c] end.
Proof.
  intros Hc. induction a as [|x a IH].
  - cbn [app lstrip]. by rewrite Hc.
  - cbn [app lstrip]. destruct (isspace x); [exact IH | reflexivity].
Qed.

Lemma rstrip_cons_space c r :
  isspace c = true ->
  rstrip (c :: r) = match rstrip r with [] => [] | l => c :: l end.
Proof.
  intros Hc. unfold rstrip. cbn [rev]. rewrite lstrip_app_space by done.
  destruct (lstrip (rev r)) as [|y l] eqn:E; [done|].
  rewrite rev_app_distr. cbn [rev app].
  destruct (rev l ++ [y]) eqn:E2; [by destruct (rev l) | reflexivity].
Qed.

Lemma lstrip_rstrip s : lstrip (rstrip s) = rstrip (lstrip s).
Proof.
  induction s as [|c r IH]; [done|]. cbn [lstrip].
  destruct (isspace c) eqn:Hc.
  - rewrite <- IH, rstrip_cons_space by done.
    destruct (rstrip r) as [|y l]; [done|]. cbn [lstrip]. by rewrite Hc.
  - rewrite rstrip_cons_nonspace by done. cbn [lstrip]. by rewrite Hc.
Qed.

Lemma strip_lstrip s : strip (lstrip s) = strip s.
Proof. unfold strip. by rewrite lstrip_lstrip. Qed.

Lemma strip_rstrip s : strip (rstrip s) = strip s.
Proof. unfold strip. by rewrite lstrip_rstrip, rstrip_rstrip. Qed.

Lemma strip_strip s : strip (strip s) = strip s.
Proof. unfold strip at 2. by rewrite strip_rstrip, strip_lstrip. Qed.

Lemma lstrip_in c s : In c (lstrip s) -> In c s.
Proof.
  induction s as [|x s IH]; [done|]. cbn [lstrip].
  destruct (isspace x); [ intros H; right; auto | done ].
Qed.

Lemma strip_in c s : In c (strip s) -> In c s.
Proof.
  unfold strip, rstrip. intros H. apply lstrip_in.
  apply (proj2 (in_rev _ _)) in H. apply lstrip_in in H.
  by apply (proj2 (in_rev _ _)) in H.
Qed.

Lemma has_char_false c s : has_char c s = false <-> ~ In c s.
Proof.
  unfold has_char. split.
  - intros H Hin. assert (existsb (N.eqb c) s = true); [ | congruence ].
    apply existsb_exists. exists c. split; [done | apply N.eqb_refl].
  - intros H. destruct (existsb (N.eqb c) s) eqn:E; [ | done ].
    apply existsb_exists in E as (x & Hin & Hx). apply N.eqb_eq in Hx. by subst x.
Qed.

Lemma has_char_strip c s : has_char c s = false -> has_char c (strip s) = false.
Proof. rewrite !has_char_false. intros H Hin. by apply H, strip_in. Qed.

Lemma has_char_lstrip c s : has_char c s = false -> has_char c (lstrip s) = false.
Proof. rewrite !has_char_false. intros H Hin. by apply H, lstrip_in. Qed.

Lemma split1_first sep k v :
  has_char sep k = false -> split1 sep (k ++ sep :: v) = Some (k, v).
Proof.
  induction k as [|c k IH]; cbn [app split1 has_char existsb].
  - by rewrite N.eqb_refl.
  - intros H. apply orb_false_elim in H as [Hc Hk].
    rewrite N.eqb_sym in Hc. rewrite Hc. unfold has_char in IH. by rewrite IH.
Qed.

Lemma classify_key_value key value :
  has_char 61 key = false -> has_char 0 key = false -> has_char 0 value = false ->
  nonempty (strip key) = true -> startswith 35 (strip key) = false ->
  classify (key ++ 61 :: value) = Assigned (strip key) (strip value).
Proof.
  intros H61 H0k H0v Hne Hhash. unfold classify. cbv zeta.
  assert (Hline : strip (key ++ 61 :: value) = lstrip key ++ 61 :: rstrip value).
  { unfold strip. rewrite lstrip_app_nonspace by done.
    by rewrite rstrip_app_nonspace. }
  rewrite Hline.
  destruct (lstrip_head key) as [Hnil | (c & r & Hkey & Hc)].
  { unfold strip in Hne. by rewrite Hnil in Hne. }
  assert (Hstart : startswith 35 (lstrip key ++ 61 :: rstrip value) = false).
  { unfold strip in Hhash. rewrite Hkey in Hhash |- *.
    rewrite rstrip_cons_nonspace in Hhash by done. exact Hhash. }
  rewrite Hstart. rewrite Hkey at 1. cbn [app nonempty andb negb].
  rewrite split1_first by (by apply has_char_lstrip).
  rewrite strip_lstrip, strip_rstrip.
  rewrite (has_char_strip 0 key H0k), (has_char_strip 0 value H0v).
  rewrite (has_char_strip 61 key H61). cbn [orb]. by rewrite Hne.
Qed.

Lemma splitlines_one cur s :
  forallb (fun c => negb (is_linebreak c)) s = true ->
  splitlines_from cur (s ++ [10]) = [rev cur ++ s].
Proof.
  revert cur. induction s as [|c r IH]; intros cur H.
  - cbn. by rewrite app_nil_r.
  - cbn [forallb] in H. apply andb_prop in H as [Hc Hr].
    cbn [app splitlines_from].
    destruct (c =? 13) eqn:E13.
    { apply N.eqb_eq in E13. subst c. done. }
    apply negb_true_iff in Hc. rewrite Hc. rewrite IH by done.
    cbn [rev]. by rewrite <- app_assoc.
Qed.

(** X10. A .env file that holds the one line KEY=VALUE sets KEY to VALUE,
    both without the blanks around them.  Only the first "=" separates:
    VALUE may contain "=" (and "#", and inner blanks) and is stored as it
    is, quotes included. *)
Theorem key_value_line_is_stored (h : host) (st : state) (f : file)
    (key value : list N) :
  fs st !! path_str (ENV_FILE h) = Some f ->
  content f = key ++ [61] ++ value ++ NL ->
  forallb (fun c => negb (is_linebreak c)) (key ++ value) = true ->
  has_char 61 key = false ->
  has_char 0 key = false -> has_char 0 value = false ->
  nonempty (strip key) = true -> startswith 35 (strip key) = false ->
  exists st',
    load_dotenv h st = (Return (), st')
    /\ environ st' = <[strip key := strip value]> (environ st)
    /\ fs st' = fs st.
Proof.
  intros Hf Hcontent Hbreaks H61 H0k H0v Hne Hhash.
  destruct (load_dotenv_spec h st) as (st' & E & V & F & _).
  exists st'. split; [exact E | ]. split; [ | exact F ].
  rewrite V. unfold dotenv_environ. rewrite Hf, Hcontent.
  assert (Hlines : splitlines (key ++ [61] ++ value ++ NL) = [key ++ 61 :: value]).
  { unfold splitlines, NL.
    replace (key ++ [61] ++ value ++ [10]) with ((key ++ 61 :: value) ++ [10])
      by (by rewrite <- app_assoc).
    rewrite splitlines_one; [reflexivity | ].
    rewrite forallb_app in Hbreaks |- *. cbn [forallb].
    apply andb_prop in Hbreaks as [-> ->]. reflexivity. }
  rewrite Hlines. cbn [accepted_prefix]. unfold is_rejected.
  rewrite classify_key_value by done. cbn [foldl]. unfold assign.
  by rewrite classify_key_value.
Qed.

Lemma insert_keeps (m : gmap (list N) file) p q x :
  is_Some (m !! p) -> is_Some (<[q := x]> m !! p).
Proof.
  intros H. destruct (decide (q = p)) as [->|Hne].
  - rewrite lookup_insert_eq. eauto.
  - by rewrite lookup_insert_ne.
Qed.

Lemma store_keeps (m : gmap (list N) file) p q data :
  is_Some (m !! p) -> is_Some (store q data m !! p).
Proof. apply insert_keeps. Qed.



Lemma config_step v h s3 s4 :
  generate_config_of v h s3 = (Return (), s4) ->
  exists password n,
    environ s3 !! py "HY2_PASSWORD" = Some password /\ password <> []
    /\ py_int h (default (py "7102") (environ s3 !! py "HY2_PORT")) = Some n
    /\ fs s4 = store (path_str (CONFIG_FILE h))
                 (join NL (config_lines v h n password
                             (default (py "https://www.bing.com")
                                (environ s3 !! py "MASQUERADE_URL"))) ++ NL)
                 (fs s3).
Proof.
  intros E.
  destruct (nonempty (default [] (environ s3 !! py "HY2_PASSWORD"))) eqn:Hpw.
  2:{ destruct (generate_config_of_no_password v h s3 Hpw) as (s & Es & _). congruence. }
  destruct (py_int h (default (py "7102") (environ s3 !! py "HY2_PORT"))) as [n|] eqn:Hport.
  2:{ destruct (generate_config_of_bad_port v h s3 Hport) as (s & Es & _). congruence. }
  destruct (environ s3 !! py "HY2_PASSWORD") as [password|] eqn:Hlook; [ | done ].
  cbn [default] in Hpw.
  exists password, n. split; [reflexivity | ].
  split; [ by destruct password | ]. split; [reflexivity | ].
  rewrite <- config_content_lines.
  revert E. destruct v; unfold generate_config_of, App.generate_config, Bot.generate_config;
    intros E.
  - destruct (generate_config_with_writes h (App.config_content h) s3 password n
                Hlook Hpw Hport) as (s & Es & F & _).
    rewrite E in Es. injection Es as <-. exact F.
  - destruct (generate_config_with_writes h (Bot.config_content h) s3 password n
                Hlook Hpw Hport) as (s & Es & F & _).
    rewrite E in Es. injection Es as <-. exact F.
Qed.

Lemma recorded_binary_present h st c :
  recorded_binary h st = Some c ->
  exists b, fs st !! path_str c = Some b /\ executable b = true.
Proof.
  unfold recorded_binary.
  destruct (fs st !! path_str (Bot.BINARY_RECORD h)) as [f|]; [ | done ].
  cbv zeta.
  destruct (fs st !! path_str (truediv (WORK_DIR h) (strip (content f))))
    as [b|] eqn:Eb; [ | done ].
  destruct (executable b) eqn:Ex; [ | done ].
  intros [= <-]. eauto.
Qed.

Lemma download_step v h s1 s2 :
  download_of v h s1 = (Return (), s2) ->
  match v with
  | Plain => is_Some (fs s2 !! path_str (App.HY2_BINARY h))
  | Obfuscated =>
    exists b, HY2_BINARY s2 = Some b /\ is_Some (fs s2 !! path_str b)
  end.
Proof.
  destruct v; unfold download_of; intros E.
  - destruct (app_download_cases h s1) as (r & s & Es & _ & H).
    rewrite E in Es. injection Es as <- <-.
    destruct (fs s1 !! path_str (App.HY2_BINARY h)) as [b|] eqn:Eb.
    + destruct H as (_ & -> & _). rewrite Eb. eauto.
    + destruct H as [_ H].
      destruct (urlretrieve_outcome h (download_url s1)) as [body|msg part].
      * destruct H as [_ ->]. rewrite lookup_insert_eq. eauto.
      * by destruct H.
  - destruct (bot_download_cases h s1) as (r & s & Es & H).
    rewrite E in Es. injection Es as <- <-.
    destruct (recorded_binary h s1) as [c|] eqn:Erec.
    + destruct H as (_ & F & B). exists c. split; [exact B | ]. rewrite F.
      destruct (recorded_binary_present h s1 c Erec) as (b & -> & _). eauto.
    + destruct (urlretrieve_outcome h (download_url s1)) as [body|msg part].
      * destruct H as (_ & B & ->). eexists. split; [exact B | ].
        apply store_keeps. rewrite lookup_insert_eq. eauto.
      * by destruct H.
Qed.

Lemma launching_run v h st tr e :
  trace (main_of v h st).2 = trace st ++ tr ->
  In e tr -> is_launch e = true ->
  exists s1 s2 s3 s4 binary,
    load_dotenv h (after_banner h st) = (Return (), s1)
    /\ environ s1 = dotenv_environ h st /\ fs s1 = fs st
    /\ download_of v h s1 = (Return (), s2)
    /\ generate_self_signed_cert h s2 = (Return (), s3)
    /\ generate_config_of v h s3 = (Return (), s4)
    /\ environ s3 = environ s1
    /\ main_of v h st = run_of v h (emit (ESleep 2) s4)
    /\ e = launch_event binary h
    /\ match v with
       | Plain => binary = App.HY2_BINARY h
       | Obfuscated => HY2_BINARY s2 = Some binary
       end
    /\ environ s4 = environ s3
    /\ exists before t5,
         tr = before ++ [ESleep 2] ++ t5 ++ [launch_event binary h]
         /\ forallb prelude before = true
         /\ forallb calm t5 = true
         /\ List.filter is_link_line t5 = [link_line (the_url h s4)].
Proof.
  intros Htr Hin He.
  pose proof (main_of_startup v h) as Hmain. rewrite Hmain in Htr |- *.
  destruct (startup_cases h (download_of v h) (generate_config_of v h)
              (run_of v h) st (download_of_runs v h) (generate_config_of_runs v h))
    as [(st' & tr' & E & T & P) | Hright].
  { rewrite E in Htr. cbn [snd] in Htr. rewrite T in Htr.
    apply app_inv_head in Htr. subst tr'.
    destruct (no_launch_in tr e (prelude_no_launch _ P) Hin He). }
  destruct Hright as (s1 & s2 & s3 & s4 & t1 & t2 & t3 & t4 & E1 & T1 & V1 & E2
                      & T2 & E3 & T3 & E4 & T4 & V3 & P & Erun).
  rewrite Erun in Htr.
  assert (T4' : trace s4 = trace st ++ banner h ++ t1 ++ t2 ++ t3 ++ t4).
  { rewrite T4, T3, T2, T1. by rewrite <- !app_assoc. }
  assert (P0 : forallb prelude (banner h ++ t1 ++ t2 ++ t3 ++ t4) = true).
  { apply forallb_prelude_app; [apply banner_prelude | exact P]. }
  assert (F1 : fs s1 = fs st).
  { destruct (load_dotenv_spec h (after_banner h st)) as (s & Es & _ & F & _).
    rewrite E1 in Es. injection Es as <-. exact F. }
  destruct (generate_self_signed_cert_runs h s2) as [(_ & B3 & _) _].
  rewrite E3 in B3. cbn [snd] in B3. unfold same_binary in B3.
  destruct (generate_config_of_runs v h s3) as [(V4 & B4 & _) _].
  rewrite E4 in B4, V4. cbn [snd] in B4, V4. unfold same_binary in B4.
  unfold same_environ in V4.
  destruct (run_of_spec v h (emit (ESleep 2) s4))
    as [(r & st' & t5 & binary & E & T & C & L & Hwhich)
       | (x & st' & tr' & E & T & N & _)].
  - rewrite E in Htr. cbn [snd] in Htr. rewrite T in Htr.
    cbn [trace emit] in Htr, T. rewrite T4', <- !app_assoc in Htr.
    apply app_inv_head in Htr. subst tr.
    assert (Hl : no_launch ((banner h ++ t1 ++ t2 ++ t3 ++ t4) ++ [ESleep 2] ++ t5)).
    { unfold no_launch. rewrite forallb_app.
      rewrite (prelude_no_launch _ P0).
      change (forallb (fun e => negb (is_launch e)) ([ESleep 2] ++ t5))
        with (forallb (fun e => negb (is_launch e)) t5).
      by rewrite (calm_no_launch _ C). }
    assert (e = launch_event binary h) as ->.
    { apply (launch_is_last e _ _) with (3 := Hl); [ | exact He ].
      by rewrite <- !app_assoc. }
    exists s1, s2, s3, s4, binary.
    do 9 (split; [ first [ done | exact Erun ] | ]).
    split.
    { destruct v; [exact Hwhich | ].
      cbn [HY2_BINARY emit] in Hwhich. by rewrite B4, B3 in Hwhich. }
    split; [exact V4 | ].
    exists (banner h ++ t1 ++ t2 ++ t3 ++ t4), t5.
    split; [ by rewrite <- !app_assoc | ]. split; [exact P0 | ].
    split; [exact C | exact L].
  - rewrite E in Htr. cbn [snd] in Htr. rewrite T in Htr.
    cbn [trace emit] in Htr. rewrite T4', <- !app_assoc in Htr.
    apply app_inv_head in Htr. subst tr.
    exfalso.
    assert (Hl : no_launch ((banner h ++ t1 ++ t2 ++ t3 ++ t4) ++ [ESleep 2] ++ tr')).
    { unfold no_launch. rewrite forallb_app.
      rewrite (prelude_no_launch _ P0).
      change (forallb (fun e => negb (is_launch e)) ([ESleep 2] ++ tr'))
        with (forallb (fun e => negb (is_launch e)) tr').
      by rewrite N. }
    apply (no_launch_in _ e Hl); [ | exact He ].
    by rewrite <- !app_assoc.
Qed.



(** X15. The link that a run prints belongs to the server it starts.  A run
    that starts the server printed exactly one connection link; its
    password is the non-empty HY2_PASSWORD that went into config.yaml, never
    the "[未设置]" placeholder, and port, domain and node name are read from
    the same environment, the one the .env file left. *)
Theorem link_carries_configured_password (v : script) (h : host) (st : state)
    (tr : list event) (e : event) :
  trace (main_of v h st).2 = trace st ++ tr ->
  In e tr -> is_launch e = true ->
  let env := environ (load_dotenv h st).2 in
  let ip := default (py "你的服务器IP") (first_answer h ip_sources) in
  let name := strip (default (py "Hysteria2 Node") (env !! py "HY2_NODE_NAME")) in
  exists password,
    env !! py "HY2_PASSWORD" = Some password /\ password <> []
    /\ links tr
       = [ link_line
             (let base := py "hysteria2://" ++ password ++ py "@" ++ ip
                          ++ py ":" ++ default (py "7102") (env !! py "HY2_PORT")
                          ++ py "/?sni="
                          ++ default (py "bing.com") (env !! py "FAKE_DOMAIN")
                          ++ py "&insecure=1" in
              if nonempty name then base ++ py "#" ++ name else base) ].
Proof.
  intros Htr Hin He env ip name. subst env ip name. rewrite load_dotenv_environ.
  destruct (launching_run v h st tr e Htr Hin He)
    as (s1 & s2 & s3 & s4 & binary & E1 & V1 & F1 & E2 & E3 & E4 & V3 & Erun
        & -> & Hwhich & V4 & before & t5 & -> & P & C & L).
  destruct (config_step v h s3 s4 E4) as (password & n & Hpw & Hne & _).
  assert (V : environ s4 = dotenv_environ h st) by congruence.
  rewrite V3, V1 in Hpw.
  exists password. split; [exact Hpw | ]. split; [exact Hne | ].
  unfold links. rewrite !List.filter_app, (prelude_no_link _ P), L.
  change (List.filter is_link_line [ESleep 2]) with (@nil event).
  change (List.filter is_link_line [launch_event binary h]) with (@nil event).
  cbn [app]. unfold the_url, client_url, base_url, getd. rewrite V, Hpw.
  reflexivity.
Qed.

Lemma run_of_result v h st binary :
  match v with
  | Plain => binary = App.HY2_BINARY h
  | Obfuscated => HY2_BINARY st = Some binary
  end ->
  (run_of v h st).1 = unchecked_run h (server_argv binary h).
Proof.
  intros Hbin. unfold unchecked_run, server_argv.
  destruct (get_public_ip_full h st) as (st1 & t1 & E1 & T1 & Q1 & P1 & V1 & F1 & B1).
  destruct v; unfold run_of.
  - subst binary.
    unfold App.run_hysteria2. unfold mbind at 1. unfold prog_bind at 1.
    rewrite E1.
    cbv [mbind prog_bind mret prog_ret fmap prog_fmap getenv_default print
         subprocess_run].
    cbn [environ emit trace fst snd].
    destruct (subprocess_outcome h _) as [writes code|msg]; cbn [andb fst];
      reflexivity.
  - unfold Bot.run_hysteria2. unfold mbind at 1. unfold prog_bind at 1.
    rewrite E1.
    cbv [mbind prog_bind mret prog_ret fmap prog_fmap getenv_default print
         subprocess_run Bot.the_binary].
    cbn [environ emit trace fst snd HY2_BINARY]. rewrite B1, Hbin.
    destruct (subprocess_outcome h _) as [writes code|msg]; cbn [andb fst];
      reflexivity.
Qed.

(** X12. Each script ends in one of three ways.  Either it exits with
    status 1 before the server was started; or it started the server as its
    last action and returns normally, whatever exit status the server had;
    or the server binary could not be started and that error leaves the
    script.  It never exits with another status, and no other error gets
    out of [main]. *)
Theorem script_ends_in_one_of_three_ways (v : script) (h : host) (st : state) :
  exists r st' tr,
    main_of v h st = (r, st') /\ trace st' = trace st ++ tr
    /\ ((r = Exit 1 /\ no_launch tr)
        \/ exists binary before,
             tr = before ++ [launch_event binary h] /\ no_launch before
             /\ r = unchecked_run h (server_argv binary h)).
Proof.
  rewrite main_of_startup.
  destruct (startup_cases h (download_of v h) (generate_config_of v h)
              (run_of v h) st (download_of_runs v h) (generate_config_of_runs v h))
    as [(st' & tr' & E & T & P) | Hright].
  { exists (Exit 1), st', tr'. split; [exact E | ]. split; [exact T | ].
    left. split; [reflexivity | by apply prelude_no_launch]. }
  destruct Hright as (s1 & s2 & s3 & s4 & t1 & t2 & t3 & t4 & E1 & T1 & V1 & E2
                      & T2 & E3 & T3 & E4 & T4 & V3 & P & Erun).
  rewrite Erun.
  assert (T4' : trace s4 = trace st ++ banner h ++ t1 ++ t2 ++ t3 ++ t4).
  { rewrite T4, T3, T2, T1. by rewrite <- !app_assoc. }
  assert (P0 : forallb prelude (banner h ++ t1 ++ t2 ++ t3 ++ t4) = true).
  { apply forallb_prelude_app; [apply banner_prelude | exact P]. }
  destruct (generate_self_signed_cert_runs h s2) as [(_ & B3 & _) _].
  rewrite E3 in B3. cbn [snd] in B3. unfold same_binary in B3.
  destruct (generate_config_of_runs v h s3) as [(_ & B4 & _) _].
  rewrite E4 in B4. cbn [snd] in B4. unfold same_binary in B4.
  pose proof (download_step v h s1 s2 E2) as Hbin.
  destruct (run_of_spec v h (emit (ESleep 2) s4))
    as [(r & st' & t5 & binary & E & T & C & L & Hwhich)
       | (x & st' & tr' & E & T & N & -> & Hnone)].
  - pose proof (run_of_result v h (emit (ESleep 2) s4) binary Hwhich) as Hr.
    rewrite E in Hr. cbn [fst] in Hr.
    exists r, st', ((banner h ++ t1 ++ t2 ++ t3 ++ t4) ++ [ESleep 2] ++ t5
                    ++ [launch_event binary h]).
    split; [exact E | ]. split.
    { rewrite T. cbn [trace emit]. rewrite T4'. by rewrite <- !app_assoc. }
    right. exists binary, ((banner h ++ t1 ++ t2 ++ t3 ++ t4) ++ [ESleep 2] ++ t5).
    split; [ by rewrite <- !app_assoc | ]. split; [ | exact Hr ].
    unfold no_launch. rewrite forallb_app.
    rewrite (prelude_no_launch _ P0).
    change (forallb (fun e => negb (is_launch e)) ([ESleep 2] ++ t5))
      with (forallb (fun e => negb (is_launch e)) t5).
    by rewrite (calm_no_launch _ C).
  - exfalso. destruct Hbin as (b & Hb & _). cbn [HY2_BINARY emit] in Hnone.
    congruence.
Qed.

Lemma download_frame v h st q :
  (forall p, In p (download_files v h) -> q <> path_str p) ->
  fs (download_of v h st).2 !! q = fs st !! q.
Proof.
  intros Hq. destruct v; unfold download_of; cbn [download_files] in Hq.
  - assert (Hne : path_str (App.HY2_BINARY h) <> q).
    { intros E. apply (Hq (App.HY2_BINARY h)); [by left | done]. }
    destruct (app_download_cases h st) as (r & s & Es & _ & H).
    rewrite Es. cbn [snd].
    destruct (fs st !! path_str (App.HY2_BINARY h)) as [b|].
    + destruct H as (_ & -> & _). reflexivity.
    + destruct H as [_ H].
      destruct (urlretrieve_outcome h (download_url st)) as [body|msg [part|]];
        destruct H as [_ ->]; by rewrite ?lookup_insert_ne.
  - assert (Htemp : path_str (temp_binary h) <> q).
    { intros E. apply (Hq (temp_binary h)); [by left | done]. }
    assert (Htarget : path_str (truediv (WORK_DIR h) (random_choices h Bot.alphabet 16))
                      <> q).
    { intros E. eapply Hq; [right; by left | done]. }
    assert (Hrecord : path_str (Bot.BINARY_RECORD h) <> q).
    { intros E. eapply Hq; [right; right; by left | done]. }
    destruct (bot_download_cases h st) as (r & s & Es & H).
    rewrite Es. cbn [snd].
    destruct (recorded_binary h st) as [c|].
    + destruct H as (_ & -> & _). reflexivity.
    + destruct (urlretrieve_outcome h (download_url st)) as [body|msg part].
      * destruct H as (_ & _ & ->). unfold store.
        rewrite lookup_insert_ne by done. rewrite lookup_insert_ne by done.
        by rewrite lookup_delete_ne.
      * destruct H as (_ & ->). by rewrite lookup_delete_ne.
Qed.

Lemma random_name_length name (lit : list N) :
  random_name_ok name -> length lit <> 16%nat -> name <> lit.
Proof. intros [Hlen _] Hlit ->. done. Qed.

Ltac other_name :=
  apply path_str_child_ne; [reflexivity | reflexivity | vm_compute; discriminate].

Ltac other_than_random Hok :=
  apply path_str_child_ne;
  [ reflexivity
  | apply (random_name_plain _ Hok)
  | apply not_eq_sym, (random_name_length _ _ Hok); vm_compute; discriminate ].

(** X14. [download_hysteria2] leaves the other files of the installation
    alone: whatever the download does (reuse, success, failure), config.yaml,
    cert.crt, cert.key and .env are afterwards what they were before.  For
    the obfuscating script this holds because a random name of sixteen
    letters and digits is none of these names. *)
Theorem download_spares_other_files (v : script) (h : host) (st : state)
    (p : Path) :
  random_name_ok (random_choices h Bot.alphabet 16) ->
  In p [CONFIG_FILE h; CERT_FILE h; KEY_FILE h; ENV_FILE h] ->
  fs (download_of v h st).2 !! path_str p = fs st !! path_str p.
Proof.
  intros Hok Hin. apply download_frame. intros q Hq.
  cbn [In] in Hin.
  destruct v; cbn [download_files In] in Hq.
  - destruct Hq as [<- | []].
    unfold App.HY2_BINARY, CONFIG_FILE, CERT_FILE, KEY_FILE, ENV_FILE in *.
    destruct Hin as [<- | [<- | [<- | [<- | []]]]]; other_name.
  - unfold temp_binary, Bot.BINARY_RECORD, CONFIG_FILE, CERT_FILE, KEY_FILE, ENV_FILE in *.
    destruct Hq as [<- | [<- | [<- | []]]];
      destruct Hin as [<- | [<- | [<- | [<- | []]]]];
      first [ other_name | other_than_random Hok ].
Qed.

Lemma fresh_key_is_private_witness :
  exists st',
    generate_self_signed_cert demo_host fresh_state = (Return (), st')
    /\ fs st' !! path_str (KEY_FILE demo_host)
       = Some {| content := py "KEY"; mode := 384 |}.
Proof.
  destruct (fresh_key_is_private demo_host fresh_state
              [ (py "/home/container/cert.key", py "KEY");
                (py "/home/container/cert.crt", py "CERT") ]
              (text_file (py "KEY")) (text_file (py "CERT")))
    as (st' & E & _ & K & _).
  - left. vm_compute; reflexivity.
  - vm_compute; reflexivity.
  - vm_compute; reflexivity.
  - vm_compute; reflexivity.
  - exists st'. split; [exact E | exact K].
Defined.

Lemma openssl_failure_ends_script_witness :
  exists st',
    generate_self_signed_cert no_openssl_host fresh_state = (Exit 1, st').
Proof.
  destruct (openssl_failure_ends_script no_openssl_host fresh_state)
    as (st' & E & _).
  - left. vm_compute; reflexivity.
  - vm_compute. exact I.
  - by exists st'.
Defined.



Lemma recorded_binary_is_reused_witness :
  exists st' line,
    Bot.download_hysteria2 demo_host recorded_state = (Return (), st')
    /\ trace st' = trace recorded_state ++ [EPrint line]
    /\ fs st' = fs recorded_state.
Proof.
  destruct (recorded_binary_is_reused demo_host recorded_state
              (truediv (WORK_DIR demo_host) (py "k3v9x0q2m7c1z8a4")))
    as (st' & line & E & T & F & _).
  - vm_compute; reflexivity.
  - by exists st', line.
Defined.


Lemma load_dotenv_keeps_other_keys_witness :
  environ (load_dotenv demo_host mixed_state).2 !! py "HY2_PASSWORD"
  = Some (py "secret").
Proof.
  refine (eq_trans (load_dotenv_keeps_other_keys demo_host mixed_state
                      (py "HY2_PASSWORD") _) _).
  - intros f line k v Hf Hin Hsplit.
    vm_compute in Hf. injection Hf as <-.
    vm_compute in Hin. destruct Hin as [<- | []].
    vm_compute in Hsplit. injection Hsplit as <- <-.
    vm_compute. discriminate.
  - vm_compute; reflexivity.
Defined.

Lemma key_value_line_is_stored_witness :
  exists st',
    load_dotenv demo_host spaced_state = (Return (), st')
    /\ environ st' !! py "HY2_PASSWORD" = Some (py "a=b#c").
Proof.
  destruct (key_value_line_is_stored demo_host spaced_state
              (text_file (py " HY2_PASSWORD " ++ [61] ++ py " a=b#c " ++ NL))
              (py " HY2_PASSWORD ") (py " a=b#c "))
    as (st' & E & V & _).
  - vm_compute; reflexivity.
  - reflexivity.
  - vm_compute; reflexivity.
  - vm_compute; reflexivity.
  - vm_compute; reflexivity.
  - vm_compute; reflexivity.
  - vm_compute; reflexivity.
  - vm_compute; reflexivity.
  - exists st'. split; [exact E | ]. rewrite V. vm_compute. reflexivity.
Defined.



Lemma download_spares_other_files_witness :
  fs (download_of Obfuscated demo_host ready_state).2
    !! path_str (CONFIG_FILE demo_host)
  = fs ready_state !! path_str (CONFIG_FILE demo_host).
Proof.
  apply (download_spares_other_files Obfuscated demo_host ready_state
           (CONFIG_FILE demo_host)).
  - split; vm_compute; reflexivity.
  - left. reflexivity.
Defined.

Lemma link_carries_configured_password_witness :
  links (trace (main_of Plain demo_host ready_state).2)
  = [ link_line (py "hysteria2://secret@203.0.113.7:7102/?sni=bing.com&insecure=1#Hysteria2 Node") ].
Proof.
  assert (H1 : trace (main_of Plain demo_host ready_state).2
               = trace ready_state ++ trace (main_of Plain demo_host ready_state).2)
    by (vm_compute; reflexivity).
  assert (H2 : In (launch_event (App.HY2_BINARY demo_host) demo_host)
                 (trace (main_of Plain demo_host ready_state).2)).
  { vm_compute. repeat (first [left; reflexivity | right]). }
  assert (H3 : is_launch (launch_event (App.HY2_BINARY demo_host) demo_host) = true)
    by (vm_compute; reflexivity).
  destruct (link_carries_configured_password Plain demo_host ready_state
              _ _ H1 H2 H3) as (password & Hpw & _ & L).
  refine (eq_trans L _).
  assert (Hsecret : environ (load_dotenv demo_host ready_state).2 !! py "HY2_PASSWORD"
                    = Some (py "secret")) by (vm_compute; reflexivity).
  rewrite Hsecret in Hpw. injection Hpw as <-.
  vm_compute. reflexivity.
Defined.
